(** * A model of the attendance routes of website-absensi

    Shallow embedding of the Express route handlers of
    [src/server/routes/attendance.js], of the class routes
    ([src/unnamed/part_001]), of the dashboard statistics
    ([src/unnamed/part_005]) and of the Joi schemas they validate with.
    The relational store (Supabase / PostgREST over the tables of
    [src/supabase/migrations/20250811012231_warm_mud.sql]) is modelled as
    lists of rows; a query builder call becomes a list function. *)

From Stdlib Require Import List String Ascii ZArith Bool Lia Arith.
From Stdlib Require Import QArith Qround Qcanon ListDec Sorted Permutation.
Import ListNotations.
Close Scope Q_scope.
Open Scope nat_scope.

(* ------------------------------------------------------------------ *)
(** ** Attendance status (the [attendance_status] enum of the store) *)

Inductive status := Present | Absent | Late | Excused.

Definition status_eqb (a b : status) : bool :=
  match a, b with
  | Present, Present | Absent, Absent | Late, Late | Excused, Excused => true
  | _, _ => false
  end.


(* ------------------------------------------------------------------ *)
(** ** JS objects with string keys

    A JS object used as a dictionary is modelled by its own properties in
    creation order. [Object.entries] lists the array-index keys first, in
    ascending numeric order, then the other string keys in creation order
    (ECMAScript OrdinaryOwnPropertyKeys). *)

Module JsObject.

Section Obj.
Variable V : Type.

Definition t := list (string * V).

Fixpoint get (o : t) (k : string) : option V :=
  match o with
  | [] => None
  | (k', v) :: o' => if String.eqb k k' then Some v else get o' k
  end.

(** [o[k] = v]: overwrite an existing property in place, or append. *)
Fixpoint set (o : t) (k : string) (v : V) : t :=
  match o with
  | [] => [(k, v)]
  | (k', v') :: o' =>
      if String.eqb k k' then (k', v) :: o' else (k', v') :: set o' k v
  end.

End Obj.

Arguments get {V} o k.
Arguments set {V} o k v.

Definition is_digit (c : ascii) : bool :=
  let n := nat_of_ascii c in (48 <=? n) && (n <=? 57).

Fixpoint all_digits (s : string) : bool :=
  match s with
  | EmptyString => true
  | String c s' => is_digit c && all_digits s'
  end.

Fixpoint digits_value_acc (s : string) (acc : N) : N :=
  match s with
  | EmptyString => acc
  | String c s' =>
      digits_value_acc s' (acc * 10 + N.of_nat (nat_of_ascii c - 48))
  end.

Definition digits_value (s : string) : N := digits_value_acc s 0.

(** A canonical numeric string denoting an integer below [2^32 - 1]. *)
Definition is_array_index (s : string) : bool :=
  match s with
  | EmptyString => false
  | String c s' =>
      all_digits s
      && (String.eqb s "0" || negb (Ascii.eqb c "0"%char))
      && N.ltb (digits_value s) 4294967295
  end.

Section Entries.
Variable V : Type.

Fixpoint insert_index (kv : string * V) (l : list (string * V)) :=
  match l with
  | [] => [kv]
  | kv' :: l' =>
      if N.leb (digits_value (fst kv)) (digits_value (fst kv'))
      then kv :: l
      else kv' :: insert_index kv l'
  end.

Definition entries (o : t V) : list (string * V) :=
  fold_right insert_index [] (filter (fun kv => is_array_index (fst kv)) o)
  ++ filter (fun kv => negb (is_array_index (fst kv))) o.

End Entries.

Arguments entries {V} o.

End JsObject.

(* ------------------------------------------------------------------ *)
(** ** GET /api/attendance/charts: the aggregation (attendance.js 130-165) *)

Module Charts.

(** A row of the query [select(date, status, students(...))]. *)
Record row := mkRow { row_date : string; row_status : status }.

(** [{ Present, Absent, Late, Excused }] *)
Record counts := mkCounts {
  c_Present : nat; c_Absent : nat; c_Late : nat; c_Excused : nat }.

Definition zero_counts : counts := mkCounts 0 0 0 0.

(** [counts[s]++] *)
Definition bump (c : counts) (s : status) : counts :=
  match s with
  | Present => mkCounts (S (c_Present c)) (c_Absent c) (c_Late c) (c_Excused c)
  | Absent => mkCounts (c_Present c) (S (c_Absent c)) (c_Late c) (c_Excused c)
  | Late => mkCounts (c_Present c) (c_Absent c) (S (c_Late c)) (c_Excused c)
  | Excused => mkCounts (c_Present c) (c_Absent c) (c_Late c) (S (c_Excused c))
  end.

(** [Object.values(counts)] *)
Definition values (c : counts) : list nat :=
  [c_Present c; c_Absent c; c_Late c; c_Excused c].

(** An element of [chartData.trends]: [{ date, ...counts, total }]. *)
Record trend := mkTrend {
  t_date : string; t_Present : nat; t_Absent : nat; t_Late : nat;
  t_Excused : nat; t_total : nat }.

Record chartData := mkChart {
  daily : JsObject.t counts; statusCounts : counts; trends : list trend }.

(** The body of [data?.forEach(record => ...)]. *)
Definition step (st : JsObject.t counts * counts) (record : row)
  : JsObject.t counts * counts :=
  let '(dly, sc) := st in
  let date := row_date record in
  let sc' := bump sc (row_status record) in
  let dly1 :=
    match JsObject.get dly date with
    | Some _ => dly
    | None => JsObject.set dly date zero_counts
    end in
  let cur := match JsObject.get dly1 date with Some c => c | None => zero_counts end in
  (JsObject.set dly1 date (bump cur (row_status record)), sc').

Definition to_trend (kv : string * counts) : trend :=
  let '(date, c) := kv in
  mkTrend date (c_Present c) (c_Absent c) (c_Late c) (c_Excused c)
    (fold_left (fun sum count => (sum + count)%nat) (values c) 0%nat).

Definition chart (data : list row) : chartData :=
  let '(dly, sc) := fold_left step data ([], zero_counts) in
  mkChart dly sc (map to_trend (JsObject.entries dly)).

(** Specification-side helpers: dates in order of first occurrence and
    per-date, per-status row counts. *)
Definition first_seen (l : list string) : list string :=
  fold_left (fun acc x => if existsb (String.eqb x) acc then acc else acc ++ [x])
    l [].

Definition count_rows (data : list row) (d : string) (s : status) : nat :=
  List.length (filter (fun r => String.eqb (row_date r) d && status_eqb (row_status r) s)
            data).

(** The counts the spec expects for date [d]. *)
Definition counts_of (data : list row) (d : string) : counts :=
  mkCounts (count_rows data d Present) (count_rows data d Absent)
    (count_rows data d Late) (count_rows data d Excused).

End Charts.

(* ------------------------------------------------------------------ *)
(** ** Dashboard statistics ([loadDashboardData], part_005 lines 45-48)

    JS computes [presentToday / totalToday * 100] in binary64 floating
    point; the model computes it on exact rationals and applies
    [Math.round] (nearest integer, halves upward) to the exact value. *)

Module Dashboard.




End Dashboard.

(* ------------------------------------------------------------------ *)
(** ** The store: tables [classes], [students], [attendance]

    Rows are kept in table order. [attendance] has [UNIQUE(student_id,
    date)]; [id] columns are primary keys (fresh ids come from a
    counter standing for [gen_random_uuid()]). *)

Module Store.

Record class_row := mkClass { c_id : string; c_class_name : string; c_grade : Z }.

Record student := mkStudent { s_id : string; s_name : string; s_class_id : string }.

Record attendance := mkAtt {
  a_id : nat; a_student_id : string; a_date : string; a_status : status }.

Record db := mkDb {
  classes : list class_row; students : list student;
  attendance_tbl : list attendance; next_id : nat }.

(** A handler's JSON answer: HTTP status, [success] flag and the
    [error] (or [message]) text. *)
Record response := mkResp { r_status : nat; r_success : bool; r_text : string }.

(** An attendance payload after validation: [{ student_id, date, status }]. *)
Record att_input := mkInput {
  in_student_id : string; in_date : string; in_status : status }.

Definition key_is (sid date : string) (a : attendance) : bool :=
  String.eqb (a_student_id a) sid && String.eqb (a_date a) date.

(** [.select(...).single()]: the row when there is exactly one, [null]
    (with an error) otherwise. *)
Definition single {A} (rows : list A) : option A :=
  match rows with [x] => Some x | _ => None end.

(** [from('students').select('id').in('id', ids)] *)
Definition students_in (d : db) (ids : list string) : list student :=
  filter (fun s => existsb (String.eqb (s_id s)) ids) (students d).

(** [from('students').select('id').eq('id', sid)] *)
Definition students_eq (d : db) (sid : string) : list student :=
  filter (fun s => String.eqb (s_id s) sid) (students d).

(** One row of [INSERT ... ON CONFLICT (student_id, date) DO UPDATE]:
    the conflicting row gets the new status (and keeps its id), or a
    new row is appended. *)
Definition upsert_one (d : db) (v : att_input) : db * attendance :=
  let k := key_is (in_student_id v) (in_date v) in
  match find k (attendance_tbl d) with
  | Some old =>
      let upd := mkAtt (a_id old) (in_student_id v) (in_date v) (in_status v) in
      (mkDb (classes d) (students d)
         (map (fun a => if k a then mkAtt (a_id a) (a_student_id a) (a_date a) (in_status v) else a)
            (attendance_tbl d))
         (next_id d), upd)
  | None =>
      let row := mkAtt (next_id d) (in_student_id v) (in_date v) (in_status v) in
      (mkDb (classes d) (students d) (attendance_tbl d ++ [row]) (S (next_id d)), row)
  end.

Definition input_key (v : att_input) : string * string := (in_student_id v, in_date v).

Fixpoint upsert_rows (d : db) (vs : list att_input) : db * list attendance :=
  match vs with
  | [] => (d, [])
  | v :: vs' =>
      let '(d1, r) := upsert_one d v in
      let '(d2, rs) := upsert_rows d1 vs' in (d2, r :: rs)
  end.

Definition key_pair_dec (x y : string * string) : {x = y} + {x <> y}.
Proof. decide equality; apply string_dec. Defined.

(** [.upsert(rows, { onConflict: 'student_id,date' })]: one statement;
    PostgreSQL refuses it ("ON CONFLICT DO UPDATE command cannot affect
    row a second time") when two proposed rows share a key. *)
Definition upsert (d : db) (vs : list att_input) : option (db * list attendance) :=
  if NoDup_dec key_pair_dec (map input_key vs) then Some (upsert_rows d vs) else None.

(** The validated body of POST /api/attendance/bulk. *)
Record bulk_value := mkBulk { bv_date : string; bv_records : list (string * status) }.

(** [value.records.map(record => ({ ...record, date: value.date }))] *)
Definition prepare (value : bulk_value) : list att_input :=
  map (fun '(sid, st) => mkInput sid (bv_date value) st) (bv_records value).

(** POST /api/attendance/bulk after [bulkAttendanceSchema.validate]
    succeeded (attendance.js 255-301). *)
Definition post_bulk (d : db) (value : bulk_value) : db * response :=
  let attendanceRecords := prepare value in
  let studentIds := map in_student_id attendanceRecords in
  let students := students_in d studentIds in
  if negb (Nat.eqb (List.length students) (List.length studentIds)) then
    (d, mkResp 400 false "One or more students not found")
  else
    match upsert d attendanceRecords with
    | None => (d, mkResp 500 false "Failed to record bulk attendance")
    | Some (d', data) =>
        (* the message is prefixed by [data.length] *)
        (d', mkResp 201 true "attendance records processed successfully")
    end.

(** POST /api/attendance after [attendanceSchema.validate] succeeded
    (attendance.js 192-233). *)
Definition post_single (d : db) (value : att_input) : db * response :=
  match single (students_eq d (in_student_id value)) with
  | None => (d, mkResp 400 false "Student not found")
  | Some _ =>
      match upsert d [value] with
      | Some (d', [_]) => (d', mkResp 201 true "Attendance recorded successfully")
      | _ => (d, mkResp 500 false "Failed to record attendance")
      end
  end.

(** Store invariants: primary key on students, [UNIQUE(student_id, date)]
    on attendance. *)
Definition students_pk (d : db) : Prop := NoDup (map s_id (students d)).

Definition attendance_unique (d : db) : Prop :=
  NoDup (map (fun a => (a_student_id a, a_date a)) (attendance_tbl d)).

End Store.

(* ------------------------------------------------------------------ *)
(** ** GET /api/attendance/class/:classId/date/:date (attendance.js 312-364,
    the same as [db.getClassAttendanceForDate] of supabase.js)

    [.order('name')] is modelled by a stable insertion sort on the byte
    order of names ([String.leb]); the database collation is not modelled. *)

Module ClassView.
Import Store.

Definition name_le (a b : student) : bool := String.leb (s_name a) (s_name b).

Fixpoint insert_by_name (s : student) (l : list student) : list student :=
  match l with
  | [] => [s]
  | s' :: l' => if name_le s s' then s :: l else s' :: insert_by_name s l'
  end.

Definition order_by_name (l : list student) : list student :=
  fold_right insert_by_name [] l.

(** [{ id, status, date }] of the attendance row, or [null]. *)
Record att_view := mkView { v_id : nat; v_status : status; v_date : string }.

(** [{ ...student, attendance }] *)
Record student_with_attendance := mkSWA {
  swa_student : student; swa_attendance : option att_view }.

Definition class_attendance_for_date (d : db) (classId date : string)
  : list student_with_attendance :=
  let students := order_by_name
                    (filter (fun s => String.eqb (s_class_id s) classId) (Store.students d)) in
  let studentIds := map s_id students in
  let attendanceRecords :=
    filter (fun a => existsb (String.eqb (a_student_id a)) studentIds
                     && String.eqb (a_date a) date) (attendance_tbl d) in
  map (fun student =>
         let attendanceRecord :=
           find (fun a => String.eqb (a_student_id a) (s_id student)) attendanceRecords in
         mkSWA student
           (match attendanceRecord with
            | Some a => Some (mkView (a_id a) (a_status a) (a_date a))
            | None => None
            end))
    students.

End ClassView.

(* ------------------------------------------------------------------ *)
(** ** DELETE /api/classes/:id (part_001 lines 190-235) *)

Module Classes.
Import Store.

(** [await query.single()]: PostgREST answers a singular request whose
    statement touches a number of rows other than one with an error
    (PGRST116, the statement rolled back); [data] is then [null]. *)
Definition pg_single {A} (rows : list A) : option A * bool :=
  match rows with
  | [x] => (Some x, false)
  | _ => (None, true)
  end.

(** [ON DELETE CASCADE]: removing a class removes its students and their
    attendance rows. *)
Definition delete_class_rows (d : db) (id : string) : db :=
  let gone := filter (fun s => String.eqb (s_class_id s) id) (students d) in
  mkDb (filter (fun c => negb (String.eqb (c_id c) id)) (classes d))
       (filter (fun s => negb (String.eqb (s_class_id s) id)) (students d))
       (filter (fun a => negb (existsb (fun s => String.eqb (s_id s) (a_student_id a)) gone))
          (attendance_tbl d))
       (next_id d).

Definition delete_class (d : db) (id : string) : db * response :=
  (* students.select('id').eq('class_id', id).limit(1) *)
  let students := firstn 1 (filter (fun s => String.eqb (s_class_id s) id) (Store.students d)) in
  if (0 <? List.length students)%nat then
    (d, mkResp 400 false "Cannot delete class with existing students")
  else
    (* classes.delete().eq('id', id).select().single() *)
    let '(data, error) := pg_single (filter (fun c => String.eqb (c_id c) id) (classes d)) in
    if error then (d, mkResp 500 false "Failed to delete class")
    else match data with
         | None => (d, mkResp 404 false "Class not found")
         | Some _ => (delete_class_rows d id, mkResp 200 true "Class deleted successfully")
         end.

End Classes.

(* ------------------------------------------------------------------ *)
(** ** GET /api/attendance (attendance.js 26-90) *)

Module AttendanceList.

(** JS values met by [offset + limit - 1]: a [req.query] parameter is a
    string, the defaults [100] and [0] are numbers. *)
Inductive jsval := JStr (s : string) | JNum (n : Z).

Fixpoint n_to_digits (fuel : nat) (n : N) (acc : string) : string :=
  match fuel with
  | O => acc
  | S f =>
      let acc' := String (ascii_of_N (48 + N.modulo n 10)) acc in
      if N.ltb n 10 then acc' else n_to_digits f (N.div n 10) acc'
  end.

(** [String(n)] for an integer [n]. *)
Definition Z_to_string (z : Z) : string :=
  match z with
  | Zneg p => String "-" (n_to_digits (S (N.size_nat (Npos p))) (Npos p) "")
  | _ => n_to_digits (S (N.size_nat (Z.to_N z))) (Z.to_N z) ""
  end.

(** [Number(s)] on strings of decimal digits ([""] is 0); any other
    string is read as NaN ([None]). Signs, blanks, fractions and other
    numeric literals are outside this model. *)
Definition string_to_number (s : string) : option Z :=
  if JsObject.all_digits s then Some (Z.of_N (JsObject.digits_value s)) else None.

Definition to_string (v : jsval) : string :=
  match v with JStr s => s | JNum n => Z_to_string n end.

Definition to_number (v : jsval) : option Z :=
  match v with JStr s => string_to_number s | JNum n => Some n end.

(** [a + b]: string concatenation as soon as one side is a string. *)
Definition js_add (a b : jsval) : jsval :=
  match a, b with
  | JNum x, JNum y => JNum (x + y)%Z
  | _, _ => JStr (to_string a ++ to_string b)
  end.

(** [a - b] (NaN as [None]). *)
Definition js_sub (a b : jsval) : option Z :=
  match to_number a, to_number b with
  | Some x, Some y => Some (x - y)%Z
  | _, _ => None
  end.

Definition status_name (s : status) : string :=
  match s with
  | Present => "Present" | Absent => "Absent" | Late => "Late" | Excused => "Excused"
  end.

(** An attendance row with the class of its student. *)
Record arow := mkARow {
  l_id : nat; l_student_id : string; l_class_id : string; l_date : string;
  l_status : status; l_created_at : nat }.

(** A returned row: the row and its embedded [students(...)] object, [null]
    when the embedded filter [students.class_id] drops it. *)
Record out_row := mkOut { o_row : arow; o_students : option string }.

Record list_query := mkQuery {
  q_student_id : option string; q_class_id : option string; q_date : option string;
  q_start_date : option string; q_end_date : option string; q_status : option string;
  q_limit : option string; q_offset : option string }.

(** [if (x)] on an optional query string. *)
Definition truthy (x : option string) : bool :=
  match x with Some s => negb (String.eqb s "") | None => false end.

Definition param (x : option string) : string :=
  match x with Some s => s | None => "" end.

(** [.order('date', desc).order('created_at', desc)] as a stable insertion
    sort; dates are ISO strings, ordered as strings. *)
Definition before (a b : arow) : bool :=
  negb (String.leb (l_date a) (l_date b))
  || (String.eqb (l_date a) (l_date b) && Nat.leb (l_created_at b) (l_created_at a)).

Fixpoint insert_row (r : arow) (l : list arow) : list arow :=
  match l with
  | [] => [r]
  | r' :: l' => if before r r' then r :: l else r' :: insert_row r l'
  end.

Definition order_rows (l : list arow) : list arow := fold_right insert_row [] l.

(** The top-level filters: [eq('student_id')], [eq('date')],
    [gte('date')], [lte('date')], [eq('status')]. *)
Definition keep (q : list_query) (r : arow) : bool :=
  (negb (truthy (q_student_id q)) || String.eqb (l_student_id r) (param (q_student_id q)))
  && (negb (truthy (q_date q)) || String.eqb (l_date r) (param (q_date q)))
  && (negb (truthy (q_start_date q)) || String.leb (param (q_start_date q)) (l_date r))
  && (negb (truthy (q_end_date q)) || String.leb (l_date r) (param (q_end_date q)))
  && (negb (truthy (q_status q)) || String.eqb (status_name (l_status r)) (param (q_status q))).

(** [query.eq('students.class_id', class_id)] filters the embedded
    resource only: a row of another class stays, with [students: null]. *)
Definition embed (q : list_query) (r : arow) : out_row :=
  mkOut r (if negb (truthy (q_class_id q)) || String.eqb (l_class_id r) (param (q_class_id q))
           then Some (l_class_id r) else None).

(** [.range(from, to)] of supabase-js: [offset=${from}] and
    [limit=${to - from + 1}]; a non-numeric parameter is refused by
    PostgREST, which the handler answers with 500 ([None]). *)
Definition list_attendance (tbl : list arow) (q : list_query) : option (list out_row) :=
  let limit := match q_limit q with Some s => JStr s | None => JNum 100 end in
  let offset := match q_offset q with Some s => JStr s | None => JNum 0 end in
  match js_sub (js_add offset limit) (JNum 1) with
  | None => None
  | Some to =>
      match to_number (JStr (to_string offset)), js_sub (JNum to) offset with
      | Some off, Some span =>
          let lim := (span + 1)%Z in
          if (off <? 0)%Z || (lim <? 0)%Z then None
          else Some (map (embed q)
                      (firstn (Z.to_nat lim) (skipn (Z.to_nat off)
                        (order_rows (filter (keep q) tbl)))))
      | _, _ => None
      end
  end.

End AttendanceList.

(* ------------------------------------------------------------------ *)
(** ** Joi validation of request bodies (Joi 17 defaults: [abortEarly],
    [convert], unknown keys refused)

    [classSchema] (part_001 lines 7-10), [studentSchema] (export.js
    319-324, the students route) and [attendanceSchema] (attendance.js
    8-12). A body is the JSON value Express parsed. A JS string is modelled
    by a Rocq string whose characters are its UTF-16 code units, so that
    [.length] is [String.length]. The library parts that read numbers and
    dates out of strings are parameters: [coerce_number] is Joi.number's
    string conversion, [date_of] Joi.date's conversion to a time value (ms),
    [is_uuid] the [string.guid] pattern. *)

Module Joi.
Local Open Scope string_scope.
Local Set Warnings "-register-all".

Inductive json :=
| JNull
| JBool (b : bool)
| JNumber (q : Q)
| JString (s : string)
| JArray (l : list json)
| JObject (kvs : list (string * json)).

(** [details[0]]: the path (the key) and Joi's error code. *)
Record joi_error := mkErr { e_key : string; e_type : string }.

Definition dq : string := String (ascii_of_nat 34) EmptyString.

(** [details[0].message]: the label of the key between quotes, then the
    text of the code. *)
Definition message (e : joi_error) : string :=
  dq ++ e_key e ++ dq ++ " " ++
  match e_type e with
  | "any.required" => "is required"
  | "any.only" => "must be one of the allowed values"
  | "string.base" => "must be a string"
  | "string.empty" => "is not allowed to be empty"
  | "string.min" => "length must be at least the limit"
  | "string.max" => "length must be less than or equal to the limit"
  | "string.guid" => "must be a valid GUID"
  | "number.base" => "must be a number"
  | "number.unsafe" => "must be a safe number"
  | "number.integer" => "must be an integer"
  | "number.min" => "must be greater than or equal to the limit"
  | "number.max" => "must be less than or equal to the limit"
  | "date.base" => "must be a valid date"
  | "date.max" => "must be less than or equal to now"
  | "object.unknown" => "is not allowed"
  | "object.base" => "must be of type object"
  | _ => "is invalid"
  end.

(** The body as a JS object: [JSON.parse] keeps the last value of a
    repeated key at the place of its first occurrence. *)
Definition parse_object (kvs : list (string * json)) : JsObject.t json :=
  fold_left (fun o kv => JsObject.set o (fst kv) (snd kv)) kvs [].

(** A key's schema: [None] when the value (or [undefined]) passes,
    [Some code] for the first failed check. *)
Definition rule := option json -> option string.

Section Rules.
Variable coerce_number : string -> option Q.
Variable date_of : json -> option Z.
Variable is_uuid : string -> bool.

(** [Joi.string()[.min(lo)][.max(hi)][.uuid()].required()] *)
Definition joi_string (lo hi : option nat) (uuid : bool) : rule :=
  fun v =>
  match v with
  | None => Some "any.required"
  | Some (JString s) =>
      if String.eqb s "" then Some "string.empty"
      else if match lo with Some m => Nat.ltb (String.length s) m | None => false end
      then Some "string.min"
      else if match hi with Some m => Nat.ltb m (String.length s) | None => false end
      then Some "string.max"
      else if uuid && negb (is_uuid s) then Some "string.guid"
      else None
  | Some _ => Some "string.base"
  end.

(** [Joi.string().valid(...allowed).required()]: the allowed values are
    checked first, with [===]. *)
Definition joi_valid (allowed : list string) : rule :=
  fun v =>
  match v with
  | None => Some "any.required"
  | Some (JString s) => if existsb (String.eqb s) allowed then None else Some "any.only"
  | Some _ => Some "any.only"
  end.

Definition max_safe : Q := inject_Z 9007199254740991.

(** [a < b] on numbers. *)
Definition Qlt_bool (a b : Q) : bool := negb (Qle_bool b a).

(** [Joi.number().integer().min(lo).max(hi).required()] *)
Definition joi_int_range (lo hi : Z) : rule :=
  fun v =>
  match v with
  | None => Some "any.required"
  | Some j =>
      let n := match j with
               | JNumber q => Some q
               | JString s => coerce_number s
               | _ => None
               end in
      match n with
      | None => Some "number.base"
      | Some q =>
          if Qlt_bool max_safe q || Qlt_bool q (- max_safe) then Some "number.unsafe"
          else if negb (Pos.eqb (Qden (Qred q)) 1) then Some "number.integer"
          else if Qlt_bool q (inject_Z lo) then Some "number.min"
          else if Qlt_bool (inject_Z hi) q then Some "number.max"
          else None
      end
  end.

(** [Joi.date()[.max('now')].required()] *)
Definition joi_date (max_now : option Z) : rule :=
  fun v =>
  match v with
  | None => Some "any.required"
  | Some j =>
      match date_of j with
      | None => Some "date.base"
      | Some t =>
          match max_now with
          | Some now => if Z.ltb now t then Some "date.max" else None
          | None => None
          end
      end
  end.

End Rules.

Fixpoint first_error (schema : list (string * rule)) (o : JsObject.t json)
  : option joi_error :=
  match schema with
  | [] => None
  | (k, r) :: rest =>
      match r (JsObject.get o k) with
      | Some ty => Some (mkErr k ty)
      | None => first_error rest o
      end
  end.

(** [Joi.object({...}).validate(body)]: the schema keys in order, then the
    first key of [Object.keys(body)] the schema does not know. *)
Definition validate_object (schema : list (string * rule)) (body : json)
  : option joi_error :=
  match body with
  | JObject kvs =>
      let o := parse_object kvs in
      match first_error schema o with
      | Some e => Some e
      | None =>
          match find (fun k => negb (existsb (String.eqb k) (map fst schema)))
                  (map fst (JsObject.entries o)) with
          | Some k => Some (mkErr k "object.unknown")
          | None => None
          end
      end
  | _ => Some (mkErr "value" "object.base")
  end.

(** [is_uuid] is not consulted by a string rule without [.uuid()]. *)
Definition classSchema (coerce_number : string -> option Q) : list (string * rule) :=
  [("class_name", joi_string (fun _ => true) (Some 1) (Some 50) false);
   ("grade", joi_int_range coerce_number 1 12)].

Definition studentSchema (date_of : json -> option Z) (is_uuid : string -> bool)
  (now : Z) : list (string * rule) :=
  [("name", joi_string is_uuid (Some 2) (Some 100) false);
   ("class_id", joi_string is_uuid None None true);
   ("gender", joi_valid ["Male"; "Female"]);
   ("date_of_birth", joi_date date_of (Some now))].

Definition attendanceSchema (date_of : json -> option Z) (is_uuid : string -> bool)
  : list (string * rule) :=
  [("student_id", joi_string is_uuid None None true);
   ("date", joi_date date_of None);
   ("status", joi_valid ["Present"; "Absent"; "Late"; "Excused"])].

End Joi.

(* ------------------------------------------------------------------ *)
(** ** What the payloads must satisfy, in the words of the claim and in
    full *)

Module JoiSpec.
Import Joi.
Local Open Scope string_scope.

Section Preds.
Variable coerce_number : string -> option Q.
Variable date_of : json -> option Z.
Variable is_uuid : string -> bool.
Variable now : Z.

(** The number Joi reads from a value: a JSON number or a converted string. *)
Definition num_value (v : option json) : option Q :=
  match v with
  | Some (JNumber q) => Some q
  | Some (JString s) => coerce_number s
  | _ => None
  end.

Definition str_len_in (v : option json) (lo hi : nat) : Prop :=
  exists s, v = Some (JString s) /\ lo <= String.length s <= hi.

Definition uuid_str (v : option json) : Prop :=
  exists s, v = Some (JString s) /\ s <> "" /\ is_uuid s = true.

Definition one_of (v : option json) (l : list string) : Prop :=
  exists s, v = Some (JString s) /\ In s l.

Definition int_in (v : option json) (lo hi : Z) : Prop :=
  exists q z, num_value v = Some q /\ (q == inject_Z z)%Q /\ (lo <= z <= hi)%Z.

Definition date_valid (v : option json) : Prop :=
  exists j t, v = Some j /\ date_of j = Some t.

Definition date_not_after_now (v : option json) : Prop :=
  exists j t, v = Some j /\ date_of j = Some t /\ (t <= now)%Z.

Definition only_keys (o : JsObject.t json) (ks : list string) : Prop :=
  forall k, In k (map fst o) -> In k ks.

(** The complete conditions of the three schemas. *)
Definition class_payload_ok (p : json) : Prop :=
  exists kvs, p = JObject kvs /\
  let o := parse_object kvs in
  only_keys o ["class_name"; "grade"]
  /\ str_len_in (JsObject.get o "class_name") 1 50
  /\ int_in (JsObject.get o "grade") 1 12.

Definition student_payload_ok (p : json) : Prop :=
  exists kvs, p = JObject kvs /\
  let o := parse_object kvs in
  only_keys o ["name"; "class_id"; "gender"; "date_of_birth"]
  /\ str_len_in (JsObject.get o "name") 2 100
  /\ uuid_str (JsObject.get o "class_id")
  /\ one_of (JsObject.get o "gender") ["Male"; "Female"]
  /\ date_not_after_now (JsObject.get o "date_of_birth").

Definition attendance_payload_ok (p : json) : Prop :=
  exists kvs, p = JObject kvs /\
  let o := parse_object kvs in
  only_keys o ["student_id"; "date"; "status"]
  /\ uuid_str (JsObject.get o "student_id")
  /\ date_valid (JsObject.get o "date")
  /\ one_of (JsObject.get o "status") ["Present"; "Absent"; "Late"; "Excused"].

(** The Student conditions as the claim lists them. *)
Definition student_ok_as_claimed (p : json) : Prop :=
  exists kvs, p = JObject kvs /\
  let o := parse_object kvs in
  str_len_in (JsObject.get o "name") 2 100
  /\ one_of (JsObject.get o "gender") ["Male"; "Female"]
  /\ date_not_after_now (JsObject.get o "date_of_birth").

End Preds.

(** The error names the first offending key: the body is no object; or
    every earlier schema key passed and this key failed; or every schema
    key passed and this is a key of the body the schema does not have. *)
Definition names_first_offending (schema : list (string * rule)) (p : json)
  (e : joi_error) : Prop :=
  ((forall kvs, p <> JObject kvs) /\ e = mkErr "value" "object.base")
  \/ (exists kvs pre r rest, p = JObject kvs
        /\ schema = (pre ++ (e_key e, r) :: rest)%list
        /\ Forall (fun kr => snd kr (JsObject.get (parse_object kvs) (fst kr)) = None) pre
        /\ r (JsObject.get (parse_object kvs) (e_key e)) = Some (e_type e))
  \/ (exists kvs, p = JObject kvs
        /\ Forall (fun kr => snd kr (JsObject.get (parse_object kvs) (fst kr)) = None) schema
        /\ e_type e = "object.unknown"
        /\ In (e_key e) (map fst (parse_object kvs))
        /\ ~ In (e_key e) (map fst schema)).

(** Sample readers for concrete instances: ISO calendar dates
    [yyyy-MM-dd] (read by [Date] as UTC midnight), digit strings. *)
Definition days_from_civil (y m d : Z) : Z :=
  let y' := if (m <=? 2)%Z then (y - 1)%Z else y in
  let era := (y' / 400)%Z in
  let yoe := (y' - era * 400)%Z in
  let doy := ((153 * (m + (if (2 <? m)%Z then -3 else 9)) + 2) / 5 + d - 1)%Z in
  let doe := (yoe * 365 + yoe / 4 - yoe / 100 + doy)%Z in
  (era * 146097 + doe - 719468)%Z.

Definition digits_Z (s : string) : option Z :=
  if JsObject.all_digits s && negb (String.eqb s "")
  then Some (Z.of_N (JsObject.digits_value s)) else None.

Definition sample_date_of (j : json) : option Z :=
  match j with
  | JString s =>
      if (String.length s =? 10)%nat
         && String.eqb (substring 4 1 s) "-" && String.eqb (substring 7 1 s) "-"
      then match digits_Z (substring 0 4 s), digits_Z (substring 5 2 s),
                 digits_Z (substring 8 2 s) with
           | Some y, Some m, Some d =>
               if (1 <=? m)%Z && (m <=? 12)%Z && (1 <=? d)%Z && (d <=? 31)%Z
               then Some (days_from_civil y m d * 86400000)%Z else None
           | _, _, _ => None
           end
      else None
  | _ => None
  end.

Definition sample_coerce_number (s : string) : option Q :=
  option_map inject_Z (digits_Z s).

Definition is_hex (c : ascii) : bool :=
  let n := nat_of_ascii c in
  (Nat.leb 48 n && Nat.leb n 57) || (Nat.leb 65 n && Nat.leb n 70)
  || (Nat.leb 97 n && Nat.leb n 102).

Fixpoint uuid_shape (i : nat) (s : string) : bool :=
  match s with
  | EmptyString => Nat.eqb i 36
  | String c s' =>
      (if existsb (Nat.eqb i) [8; 13; 18; 23] then Ascii.eqb c "-"%char else is_hex c)
      && uuid_shape (S i) s'
  end.

(** 8-4-4-4-12 hexadecimal digits. *)
Definition sample_is_uuid (s : string) : bool := uuid_shape 0 s.

(** 2026-10-15T00:00:00Z *)
Definition sample_now : Z := (days_from_civil 2026 10 15 * 86400000)%Z.

End JoiSpec.

(* ------------------------------------------------------------------ *)
(** ** [ORDER BY] as a stable insertion sort on a comparison *)

Module Sort.
Section Ins.
Variable A : Type.
Variable le : A -> A -> bool.

Fixpoint insert (x : A) (l : list A) : list A :=
  match l with
  | [] => [x]
  | y :: l' => if le x y then x :: l else y :: insert x l'
  end.

Definition sort (l : list A) : list A := fold_right insert [] l.

End Ins.
Arguments insert {A} le x l.
Arguments sort {A} le l.
End Sort.

(* ------------------------------------------------------------------ *)
(** ** The classes router (part_001): GET /, GET /:id, POST /, PUT /:id

    A handler after [classSchema.validate] succeeded receives the
    validated [value]. [gen_random_uuid()] is the id [new_id] passed in;
    the store refuses a row whose id is taken (primary key) or whose
    grade is outside 1..12 ([CHECK (grade >= 1 AND grade <= 12)]), and
    the handler answers that error with 500. *)

Module ClassRoutes.
Import Store Classes.

(** The validated body [{ class_name, grade }]. *)
Record class_value := mkClassValue { cv_class_name : string; cv_grade : Z }.

(** [.order('grade', { ascending: true }).order('class_name', { ascending: true })] *)
Definition class_le (a b : class_row) : bool :=
  Z.ltb (c_grade a) (c_grade b)
  || (Z.eqb (c_grade a) (c_grade b) && String.leb (c_class_name a) (c_class_name b)).

(** GET /api/classes (lines 13-34) and [db.getClasses] of supabase.js:
    the rows in that order. *)
Definition get_classes (d : db) : list class_row := Sort.sort class_le (classes d).

(** GET /api/classes/:id (lines 37-76): [data] is the class with its
    students ([inl]), or the error answer ([inr]). *)
Definition get_class (d : db) (id : string) : (class_row * list student) + response :=
  let '(data, error) := pg_single (filter (fun c => String.eqb (c_id c) id) (classes d)) in
  if error then inr (mkResp 500 false "Failed to fetch class")
  else match data with
       | None => inr (mkResp 404 false "Class not found")
       | Some c => inl (c, filter (fun s => String.eqb (s_class_id s) (c_id c)) (students d))
       end.

Definition grade_ok (g : Z) : bool := Z.leb 1 g && Z.leb g 12.

(** [.eq('class_name', value.class_name).eq('grade', value.grade)] *)
Definition same_name_grade (value : class_value) (c : class_row) : bool :=
  String.eqb (c_class_name c) (cv_class_name value) && Z.eqb (c_grade c) (cv_grade value).

(** POST /api/classes (lines 79-126). Only [data] of the duplicate check
    is read: it is [null] unless exactly one row matches. *)
Definition post_class (d : db) (value : class_value) (new_id : string) : db * response :=
  let existingClass := fst (pg_single (filter (same_name_grade value) (classes d))) in
  match existingClass with
  | Some _ => (d, mkResp 400 false "Class with this name already exists for this grade")
  | None =>
      if existsb (fun c => String.eqb (c_id c) new_id) (classes d)
         || negb (grade_ok (cv_grade value))
      then (d, mkResp 500 false "Failed to create class")
      else (mkDb (classes d ++ [mkClass new_id (cv_class_name value) (cv_grade value)])
                 (students d) (attendance_tbl d) (next_id d),
            mkResp 201 true "Class created successfully")
  end.

(** PUT /api/classes/:id (lines 129-187). [.update(value).eq('id', id)
    .select().single()] fails unless exactly one row is updated (and when
    the new grade breaks the check). *)
Definition put_class (d : db) (id : string) (value : class_value) : db * response :=
  let existingClass :=
    fst (pg_single (filter (fun c => same_name_grade value c && negb (String.eqb (c_id c) id))
                      (classes d))) in
  match existingClass with
  | Some _ => (d, mkResp 400 false "Class with this name already exists for this grade")
  | None =>
      let '(data, error) := pg_single (filter (fun c => String.eqb (c_id c) id) (classes d)) in
      if error || negb (grade_ok (cv_grade value))
      then (d, mkResp 500 false "Failed to update class")
      else match data with
           | None => (d, mkResp 404 false "Class not found")
           | Some _ =>
               (mkDb (map (fun c => if String.eqb (c_id c) id
                                    then mkClass (c_id c) (cv_class_name value) (cv_grade value)
                                    else c) (classes d))
                     (students d) (attendance_tbl d) (next_id d),
                mkResp 200 true "Class updated successfully")
           end
  end.

End ClassRoutes.

(* ------------------------------------------------------------------ *)
(** ** The students router (export.js lines 314-553) and
    [db.getStudents] of supabase.js

    The store keeps of a student its [id], [name] and [class_id]; the
    validated [gender] and [date_of_birth] are carried by the payload
    but not stored by the model. *)

Module StudentRoutes.
Import Store Classes ClassView.

(** The validated body [{ name, class_id, gender, date_of_birth }]. *)
Record student_value := mkStudentValue {
  sv_name : string; sv_class_id : string; sv_gender : string; sv_date_of_birth : string }.

(** [db.getStudents(classId)] (supabase.js 38-58); with [classId] unset,
    also GET /api/students (export.js 328-355). The export of
    [/api/export/students] runs the same query (export.js 218-236). *)
Definition getStudents (d : db) (classId : option string) : list student :=
  order_by_name
    (if AttendanceList.truthy classId
     then filter (fun s => String.eqb (s_class_id s) (AttendanceList.param classId)) (students d)
     else students d).

(** GET /api/students/:id (export.js 358-395). *)
Definition get_student (d : db) (id : string) : student + response :=
  let '(data, error) := pg_single (filter (fun s => String.eqb (s_id s) id) (students d)) in
  if error then inr (mkResp 500 false "Failed to fetch student")
  else match data with
       | None => inr (mkResp 404 false "Student not found")
       | Some s => inl s
       end.

(** [classes.select('id').eq('id', value.class_id).single()]: its [data]. *)
Definition class_exists (d : db) (class_id : string) : option class_row :=
  fst (pg_single (filter (fun c => String.eqb (c_id c) class_id) (classes d))).

(** POST /api/students (export.js 398-451). *)
Definition post_student (d : db) (value : student_value) (new_id : string) : db * response :=
  match class_exists d (sv_class_id value) with
  | None => (d, mkResp 400 false "Class not found")
  | Some _ =>
      if existsb (fun s => String.eqb (s_id s) new_id) (students d)
      then (d, mkResp 500 false "Failed to create student")
      else (mkDb (classes d) (students d ++ [mkStudent new_id (sv_name value) (sv_class_id value)])
                 (attendance_tbl d) (next_id d),
            mkResp 201 true "Student created successfully")
  end.

(** PUT /api/students/:id (export.js 454-517). *)
Definition put_student (d : db) (id : string) (value : student_value) : db * response :=
  match class_exists d (sv_class_id value) with
  | None => (d, mkResp 400 false "Class not found")
  | Some _ =>
      let '(data, error) := pg_single (filter (fun s => String.eqb (s_id s) id) (students d)) in
      if error then (d, mkResp 500 false "Failed to update student")
      else match data with
           | None => (d, mkResp 404 false "Student not found")
           | Some _ =>
               (mkDb (classes d)
                     (map (fun s => if String.eqb (s_id s) id
                                    then mkStudent (s_id s) (sv_name value) (sv_class_id value)
                                    else s) (students d))
                     (attendance_tbl d) (next_id d),
                mkResp 200 true "Student updated successfully")
           end
  end.

(** DELETE /api/students/:id (export.js 520-551); [ON DELETE CASCADE]
    removes the student's attendance rows. *)
Definition delete_student (d : db) (id : string) : db * response :=
  let '(data, error) := pg_single (filter (fun s => String.eqb (s_id s) id) (students d)) in
  if error then (d, mkResp 500 false "Failed to delete student")
  else match data with
       | None => (d, mkResp 404 false "Student not found")
       | Some _ =>
           (mkDb (classes d) (filter (fun s => negb (String.eqb (s_id s) id)) (students d))
                 (filter (fun a => negb (String.eqb (a_student_id a) id)) (attendance_tbl d))
                 (next_id d),
            mkResp 200 true "Student deleted successfully")
       end.

End StudentRoutes.

(* ------------------------------------------------------------------ *)
(** ** Store integrity *)

Module Integrity.
Import Store.

Definition classes_pk (d : db) : Prop := NoDup (map c_id (classes d)).

(** No two classes share a name within a grade. *)
Definition class_names_unique (d : db) : Prop :=
  NoDup (map (fun c => (c_class_name c, c_grade c)) (classes d)).

(** Every student is in an existing class, every attendance row is of an
    existing student (the foreign keys). *)
Definition refs_ok (d : db) : Prop :=
  (forall s, In s (students d) -> In (s_class_id s) (map c_id (classes d)))
  /\ (forall a, In a (attendance_tbl d) -> In (a_student_id a) (map s_id (students d))).

End Integrity.

(* ------------------------------------------------------------------ *)
(** ** Attendance helpers of the client ([db] of supabase.js) *)

Module ClientDb.
Import Store.

(** The foreign key [attendance.student_id -> students.id]: the upsert
    statement fails when a row names no student. *)
Definition fk_ok (d : db) (vs : list att_input) : bool :=
  forallb (fun v => existsb (fun s => String.eqb (s_id s) (in_student_id v)) (students d)) vs.


(** [db.getAttendance(filters)] (supabase.js 79-106). *)
Record filters := mkFilters {
  f_studentId : option string; f_classId : option string; f_date : option string;
  f_startDate : option string; f_endDate : option string }.

Definition as_query (f : filters) : AttendanceList.list_query :=
  AttendanceList.mkQuery (f_studentId f) (f_classId f) (f_date f) (f_startDate f)
    (f_endDate f) None None None.

(** [.order('date', { ascending: false })] *)
Definition date_desc (a b : AttendanceList.arow) : bool :=
  String.leb (AttendanceList.l_date b) (AttendanceList.l_date a).

(** [db.recordAttendance(attendanceData)] (supabase.js 108-131): the
    upsert of one row, [None] when it throws. *)
Definition recordAttendance (d : db) (v : att_input) : option (db * attendance) :=
  if fk_ok d [v] then
    match upsert d [v] with
    | Some (d', [r]) => Some (d', r)
    | _ => None
    end
  else None.

Definition getAttendance (tbl : list AttendanceList.arow) (f : filters)
  : list AttendanceList.out_row :=
  map (AttendanceList.embed (as_query f))
    (Sort.sort date_desc (filter (AttendanceList.keep (as_query f)) tbl)).

End ClientDb.

(* ------------------------------------------------------------------ *)
(** ** GET /api/export/attendance and /students: the summary and the age
    column (export.js 177-195, 262-264) *)

Module ExportSheet.

(** A worksheet cell: a string or a number. *)
Inductive cell := CStr (s : string) | CNum (n : nat).

(** [data.reduce((acc, record) => { acc[record.status] =
    (acc[record.status] || 0) + 1; return acc; }, {})] *)
Definition status_tally (data : list status) : JsObject.t nat :=
  fold_left (fun acc s =>
               let k := AttendanceList.status_name s in
               JsObject.set acc k
                 (match JsObject.get acc k with Some n => n | None => 0 end + 1))
    data [].

(** The rows added below the data when [data.length > 0]: an empty row,
    the title, one row per entry of the tally, the total. *)
Definition summary_rows (data : list status) : list (list cell) :=
  if (0 <? List.length data)%nat then
    [[]; [CStr "Summary Statistics"]]
    ++ map (fun '(st, count) => [CStr (st ++ ":"); CNum count])
         (JsObject.entries (status_tally data))
    ++ [[CStr "Total Records:"; CNum (List.length data)]]
  else [].

(** [365.25 * 24 * 60 * 60 * 1000] *)
Definition ms_per_year : Z := 31557600000.

(** [Math.floor((new Date() - birthDate) / (365.25 * 24 * 60 * 60 * 1000))]
    on times in milliseconds. The division is taken exactly: for ages
    under 1024 years the binary64 quotient has the same floor. *)
Definition age (now birth : Z) : Z := Z.div (now - birth) ms_per_year.

(** The number of records of a status name: the value the tally holds
    for it. *)
Definition tally_count (data : list status) (k : string) : nat :=
  List.length (filter (fun s => String.eqb (AttendanceList.status_name s) k) data).

End ExportSheet.

(* ------------------------------------------------------------------ *)
(** ** Sample stores used by the concrete instances below *)

Module Samples.
Import Store.

(** Class c1 with students s1 (Ani) and s2 (Budi), no attendance yet. *)
Definition sample_db : db :=
  mkDb [mkClass "c1" "7A" 7] [mkStudent "s1" "Ani" "c1"; mkStudent "s2" "Budi" "c1"] [] 0.

(** Class c1 with students B and A, a row for A on 2024-01-01 and one for
    B on another day. *)
Definition view_db : db :=
  mkDb [mkClass "c1" "7A" 7]
    [mkStudent "s2" "B" "c1"; mkStudent "s1" "A" "c1"; mkStudent "s3" "C" "c2"]
    [mkAtt 0 "s1" "2024-01-01" Late; mkAtt 1 "s2" "2024-01-02" Present] 2.

(** Two classes named 7A in grade 7, as concurrent creations can leave
    them (the table has no unique constraint on name and grade). *)
Definition dup_classes_db : db :=
  mkDb [mkClass "c1" "7A" 7; mkClass "c2" "7A" 7] [] [] 0.

End Samples.

(* ================================================================== *)
(** * Facts *)

Lemma status_eqb_eq a b : status_eqb a b = true <-> a = b.
Proof. destruct a, b; simpl; split; congruence. Qed.

Module JsObjectFacts.
Import JsObject.

Section Facts.
Variable V : Type.
Implicit Types (o : t V) (v : V).

Lemma get_set_same o k v : get (set o k v) k = Some v.
Proof.
  induction o as [|[k' v'] o IH]; simpl.
  - rewrite String.eqb_refl; reflexivity.
  - destruct (String.eqb k k') eqn:E; simpl.
    + apply String.eqb_eq in E; subst; rewrite String.eqb_refl; reflexivity.
    + rewrite E; exact IH.
Qed.

Lemma get_set_other o k k' v : k <> k' -> get (set o k v) k' = get o k'.
Proof.
  intros Hne; induction o as [|[k0 v0] o IH]; simpl.
  - destruct (String.eqb k' k) eqn:E; [apply String.eqb_eq in E; congruence|reflexivity].
  - destruct (String.eqb k k0) eqn:E; simpl.
    + apply String.eqb_eq in E; subst k0.
      destruct (String.eqb k' k) eqn:E'; [apply String.eqb_eq in E'; congruence|reflexivity].
    + rewrite IH; reflexivity.
Qed.

Lemma keys_set o k v :
  map fst (set o k v) =
  if existsb (String.eqb k) (map fst o) then map fst o else map fst o ++ [k].
Proof.
  induction o as [|[k0 v0] o IH]; simpl; [reflexivity|].
  destruct (String.eqb k k0) eqn:E; simpl; [reflexivity|].
  rewrite IH; destruct (existsb (String.eqb k) (map fst o)); reflexivity.
Qed.

Lemma get_In_keys o k : In k (map fst o) -> exists v, get o k = Some v.
Proof.
  induction o as [|[k0 v0] o IH]; simpl; [tauto|].
  intros [->|H].
  - rewrite String.eqb_refl; eauto.
  - destruct (String.eqb k k0); eauto.
Qed.

Lemma get_None o k : get o k = None -> ~ In k (map fst o).
Proof. intros H Hin; destruct (get_In_keys o k Hin) as [v Hv]; congruence. Qed.

Lemma get_Some_keys o k v : get o k = Some v -> In k (map fst o).
Proof.
  induction o as [|[k0 v0] o IH]; simpl; [discriminate|].
  destruct (String.eqb k k0) eqn:E; [apply String.eqb_eq in E; auto|auto].
Qed.

Lemma In_get o k v : NoDup (map fst o) -> In (k, v) o -> get o k = Some v.
Proof.
  induction o as [|[k0 v0] o IH]; simpl; [tauto|].
  intros Hnd [Heq|Hin]; inversion Hnd as [|? ? Hnot Hnd']; subst.
  - injection Heq as -> ->; rewrite String.eqb_refl; reflexivity.
  - destruct (String.eqb k k0) eqn:E.
    + apply String.eqb_eq in E; subst k0.
      exfalso; apply Hnot; apply (in_map fst _ (k, v)); exact Hin.
    + auto.
Qed.

Lemma filter_index_nil o :
  Forall (fun k => is_array_index k = false) (map fst o) ->
  filter (fun kv : string * V => is_array_index (fst kv)) o = [].
Proof.
  induction o as [|[k v] o IH]; simpl; intros H; [reflexivity|].
  inversion H; subst; simpl in *. rewrite H2. auto.
Qed.

Lemma filter_nonindex_id o :
  Forall (fun k => is_array_index k = false) (map fst o) ->
  filter (fun kv : string * V => negb (is_array_index (fst kv))) o = o.
Proof.
  induction o as [|[k v] o IH]; simpl; intros H; [reflexivity|].
  inversion H; subst; simpl in *. rewrite H2. simpl; f_equal; auto.
Qed.

Lemma entries_no_index o :
  Forall (fun k => is_array_index k = false) (map fst o) -> entries o = o.
Proof.
  intros H; unfold entries.
  rewrite filter_index_nil, filter_nonindex_id by exact H; reflexivity.
Qed.

End Facts.
End JsObjectFacts.

Module ChartsFacts.
Import Charts JsObject JsObjectFacts.

Lemma existsb_eqb_In x l : existsb (String.eqb x) l = true <-> In x l.
Proof.
  rewrite existsb_exists; split.
  - intros [y [Hy E]]; apply String.eqb_eq in E; subst; exact Hy.
  - intros H; exists x; split; [exact H | apply String.eqb_refl].
Qed.

Lemma first_seen_snoc l x :
  first_seen (l ++ [x]) =
  if existsb (String.eqb x) (first_seen l) then first_seen l
  else first_seen l ++ [x].
Proof. unfold first_seen; rewrite fold_left_app; reflexivity. Qed.

Lemma In_first_seen x l : In x (first_seen l) <-> In x l.
Proof.
  induction l as [|y l IH] using rev_ind; [simpl; tauto|].
  rewrite first_seen_snoc, in_app_iff; simpl.
  destruct (existsb (String.eqb y) (first_seen l)) eqn:E.
  - apply existsb_eqb_In in E.
    split; [rewrite IH; tauto|]. intros [H|[<-|[]]]; [apply IH; exact H | exact E].
  - rewrite in_app_iff, IH; simpl; tauto.
Qed.

Lemma NoDup_first_seen l : NoDup (first_seen l).
Proof.
  induction l as [|y l IH] using rev_ind; [constructor|].
  rewrite first_seen_snoc.
  destruct (existsb (String.eqb y) (first_seen l)) eqn:E; [exact IH|].
  apply NoDup_app; [exact IH | repeat constructor; simpl; tauto |].
  intros a Ha [Hay|[]]; subst a. apply (proj2 (existsb_eqb_In y _)) in Ha; congruence.
Qed.

Lemma count_rows_snoc l r k s :
  count_rows (l ++ [r]) k s =
  count_rows l k s +
  (if String.eqb (row_date r) k && status_eqb (row_status r) s then 1 else 0).
Proof.
  unfold count_rows; rewrite filter_app, length_app; simpl.
  destruct (String.eqb (row_date r) k && status_eqb (row_status r) s); reflexivity.
Qed.

Lemma counts_of_snoc l r k :
  counts_of (l ++ [r]) k =
  if String.eqb (row_date r) k then bump (counts_of l k) (row_status r)
  else counts_of l k.
Proof.
  unfold counts_of; rewrite !count_rows_snoc.
  destruct (String.eqb (row_date r) k); simpl;
    [destruct (row_status r); simpl; f_equal; lia | f_equal; lia].
Qed.

Lemma counts_of_absent l k : ~ In k (map row_date l) -> counts_of l k = zero_counts.
Proof.
  intros H; unfold counts_of, count_rows.
  assert (E : forall s, filter (fun r => String.eqb (row_date r) k && status_eqb (row_status r) s) l = []).
  { intros s; induction l as [|r l IH]; simpl in *; [reflexivity|].
    destruct (String.eqb (row_date r) k) eqn:Ek; [apply String.eqb_eq in Ek; tauto|].
    simpl; apply IH; tauto. }
  rewrite !E; reflexivity.
Qed.

(** The loop invariant of [data.forEach]: the keys of [chartData.daily]
    are the dates seen so far, in first-seen order, each holding the
    counts of its rows. *)
Lemma forEach_invariant l :
  let dly := fst (fold_left step l ([], zero_counts)) in
  map fst dly = first_seen (map row_date l) /\
  (forall k, In k (map fst dly) -> get dly k = Some (counts_of l k)).
Proof.
  induction l as [|r l IH] using rev_ind; simpl.
  - split; [reflexivity | tauto].
  - rewrite fold_left_app, map_app; simpl map; rewrite first_seen_snoc.
    destruct (fold_left step l ([], zero_counts)) as [dly sc] eqn:Est.
    simpl in IH |- *; destruct IH as [Hkeys Hget].
    destruct (get dly (row_date r)) as [c|] eqn:Eg; simpl.
    + assert (Hin : In (row_date r) (map fst dly)) by (eapply get_Some_keys; eauto).
      pose proof (Hget _ Hin) as Hc; rewrite Eg in Hc; injection Hc as ->.
      rewrite keys_set, <- Hkeys.
      rewrite (proj2 (existsb_eqb_In _ _) Hin).
      split; [reflexivity|].
      intros k Hk; rewrite counts_of_snoc.
      destruct (String.eqb (row_date r) k) eqn:E.
      * apply String.eqb_eq in E; subst k; rewrite Eg; apply get_set_same.
      * assert (Hne : row_date r <> k)
          by (intros Hr; rewrite Hr, String.eqb_refl in E; discriminate).
        rewrite get_set_other by exact Hne; auto.
    + assert (Hnin : ~ In (row_date r) (map fst dly)) by (apply get_None; exact Eg).
      rewrite get_set_same.
      rewrite keys_set, keys_set, <- Hkeys.
      assert (Ef : existsb (String.eqb (row_date r)) (map fst dly) = false).
      { destruct (existsb _ _) eqn:E; [apply existsb_eqb_In in E; tauto|reflexivity]. }
      rewrite Ef.
      assert (Et : existsb (String.eqb (row_date r)) (map fst dly ++ [row_date r]) = true).
      { apply existsb_eqb_In; apply in_app_iff; simpl; auto. }
      rewrite Et; split; [reflexivity|].
      intros k Hk; rewrite counts_of_snoc.
      destruct (String.eqb (row_date r) k) eqn:E.
      * apply String.eqb_eq in E; subst k; rewrite get_set_same.
        rewrite counts_of_absent; [reflexivity|].
        rewrite <- In_first_seen, <- Hkeys; exact Hnin.
      * assert (Hne : row_date r <> k)
          by (intros Hr; rewrite Hr, String.eqb_refl in E; discriminate).
        rewrite !get_set_other by exact Hne.
        apply Hget. apply in_app_iff in Hk as [Hk|[Hk|[]]]; [exact Hk | congruence].
Qed.

End ChartsFacts.

(* ================================================================== *)
(** * Claims *)

Module ChartClaims.
Import Charts JsObject JsObjectFacts ChartsFacts.

(** C1: on the rows (2024-01-01, Present), (2024-01-01, Absent),
    (2024-01-02, Present) the chart aggregation yields the trends
    [{2024-01-01, 1, 1, 0, 0, total 2}; {2024-01-02, 1, 0, 0, 0, total 1}]
    in that order and the status counts {Present 2, Absent 1, Late 0,
    Excused 0}. *)
Theorem chart_aggregation_example :
  let data := [mkRow "2024-01-01" Present; mkRow "2024-01-01" Absent;
               mkRow "2024-01-02" Present] in
  trends (chart data) =
    [mkTrend "2024-01-01" 1 1 0 0 2; mkTrend "2024-01-02" 1 0 0 0 1]
  /\ statusCounts (chart data) = mkCounts 2 1 0 0.
Proof. split; reflexivity. Qed.

(** C2: when the dates are not array-index strings (the store returns
    them as yyyy-MM-dd), [trends] has one entry per distinct date of the
    input, in first-seen order, only for dates that occur; each entry
    holds the number of rows of that date per status and a total equal to
    the sum of its four counts. *)
Theorem chart_trends_per_date (data : list row)
  (Hdates : Forall (fun r => is_array_index (row_date r) = false) data) :
  map t_date (trends (chart data)) = first_seen (map row_date data)
  /\ Forall (fun t => In (t_date t) (map row_date data)) (trends (chart data))
  /\ Forall (fun t =>
       t_Present t = count_rows data (t_date t) Present
       /\ t_Absent t = count_rows data (t_date t) Absent
       /\ t_Late t = count_rows data (t_date t) Late
       /\ t_Excused t = count_rows data (t_date t) Excused
       /\ t_total t = t_Present t + t_Absent t + t_Late t + t_Excused t)
     (trends (chart data)).
Proof.
  pose proof (forEach_invariant data) as [Hkeys Hget]; simpl in Hkeys, Hget.
  unfold chart.
  destruct (fold_left step data ([], zero_counts)) as [dly sc] eqn:Est.
  simpl in Hkeys, Hget |- *.
  assert (Hnd : NoDup (map fst dly)) by (rewrite Hkeys; apply NoDup_first_seen).
  assert (Hsub : forall k, In k (map fst dly) -> In k (map row_date data))
    by (intros k; rewrite Hkeys, In_first_seen; auto).
  rewrite entries_no_index.
  2:{ apply Forall_forall; intros k Hk.
      apply Hsub, in_map_iff in Hk as [r [<- Hr]].
      rewrite Forall_forall in Hdates; auto. }
  assert (Hdate : map t_date (map to_trend dly) = map fst dly).
  { rewrite map_map; apply map_ext; intros [k c]; reflexivity. }
  split; [rewrite Hdate; exact Hkeys|]. split.
  - apply Forall_forall; intros t Ht.
    apply in_map_iff in Ht as [[k c] [<- Hin]]; simpl.
    apply Hsub, (in_map fst _ (k, c)), Hin.
  - apply Forall_forall; intros t Ht.
    apply in_map_iff in Ht as [[k c] [<- Hin]].
    assert (Hc : c = counts_of data k).
    { pose proof (In_get _ dly k c Hnd Hin) as H1.
      rewrite Hget in H1 by exact (in_map fst _ (k, c) Hin).
      congruence. }
    subst c; simpl; repeat split; lia.
Qed.

(** Witness for C2 on the rows of C1. *)
Lemma chart_trends_per_date_witness :
  let data := [mkRow "2024-01-01" Present; mkRow "2024-01-01" Absent;
               mkRow "2024-01-02" Present] in
  Forall (fun r => is_array_index (row_date r) = false) data
  /\ map t_date (trends (chart data)) = first_seen (map row_date data).
Proof.
  intros data.
  assert (H : Forall (fun r => is_array_index (row_date r) = false) data)
    by (repeat constructor).
  split; [exact H | exact (proj1 (chart_trends_per_date data H))].
Defined.

End ChartClaims.

Module DashboardClaims.
Import Dashboard.
Local Open Scope Z_scope.





End DashboardClaims.

Module StoreFacts.
Import Store.

Lemma NoDup_map_filter {A B} (key : A -> B) (keep : A -> bool) (rows : list A) :
  NoDup (map key rows) -> NoDup (map key (filter keep rows)).
Proof.
  induction rows as [|r rows IH]; simpl; intros Hnd; [constructor|].
  apply NoDup_cons_iff in Hnd as [Hr Hrows].
  destruct (keep r); simpl; [|exact (IH Hrows)].
  apply NoDup_cons; [|exact (IH Hrows)].
  rewrite in_map_iff; intros [r' [Hk Hin]]; apply Hr.
  rewrite <- Hk; apply in_map; apply filter_In in Hin; apply Hin.
Qed.

Lemma nodup_shorter (l : list string) :
  ~ NoDup l -> List.length (nodup string_dec l) < List.length l.
Proof.
  induction l as [|x l IH]; simpl; intros H; [exfalso; apply H; constructor|].
  assert (Hle : List.length (nodup string_dec l) <= List.length l).
  { clear; induction l as [|y l IH]; simpl; [lia|].
    destruct (in_dec string_dec y l); simpl; lia. }
  destruct (in_dec string_dec x l) as [Hin|Hnin]; simpl.
  - lia.
  - assert (~ NoDup l) by (intros Hl; apply H; constructor; assumption).
    specialize (IH H0); lia.
Qed.

Lemma students_in_ids (d : db) (ids : list string) :
  incl (map s_id (students_in d ids)) ids.
Proof.
  intros x Hx; unfold students_in in Hx.
  apply in_map_iff in Hx as [s [<- Hs]]; apply filter_In in Hs as [_ Hs].
  apply existsb_exists in Hs as [y [Hy E]]; apply String.eqb_eq in E; subst; exact Hy.
Qed.

(** Some submitted id names no student: fewer rows than ids come back. *)
Lemma students_in_missing (d : db) (ids : list string) (x : string) :
  students_pk d -> In x ids -> ~ In x (map s_id (students d)) ->
  List.length (students_in d ids) < List.length ids.
Proof.
  intros Hpk Hx Hnx.
  assert (Hnd : NoDup (x :: map s_id (students_in d ids))).
  { constructor.
    - intros Hin; apply Hnx; unfold students_in in Hin.
      apply in_map_iff in Hin as [s [<- Hs]]; apply filter_In in Hs as [Hs _].
      apply in_map; exact Hs.
    - apply NoDup_map_filter; exact Hpk. }
  assert (Hinc : incl (x :: map s_id (students_in d ids)) ids).
  { intros y [<-|Hy]; [exact Hx | exact (students_in_ids d ids y Hy)]. }
  pose proof (NoDup_incl_length Hnd Hinc) as Hl; simpl in Hl; rewrite length_map in Hl; lia.
Qed.

(** Some id is submitted twice: fewer distinct rows than ids come back. *)
Lemma students_in_duplicate (d : db) (ids : list string) :
  students_pk d -> ~ NoDup ids ->
  List.length (students_in d ids) < List.length ids.
Proof.
  intros Hpk Hdup.
  assert (Hnd : NoDup (map s_id (students_in d ids)))
    by (apply NoDup_map_filter; exact Hpk).
  assert (Hinc : incl (map s_id (students_in d ids)) (nodup string_dec ids)).
  { intros y Hy; apply nodup_In; exact (students_in_ids d ids y Hy). }
  pose proof (NoDup_incl_length Hnd Hinc) as Hl; rewrite length_map in Hl.
  pose proof (nodup_shorter ids Hdup); lia.
Qed.

Lemma prepare_ids (value : bulk_value) :
  map in_student_id (prepare value) = map fst (bv_records value).
Proof.
  unfold prepare; rewrite map_map; apply map_ext; intros [sid st]; reflexivity.
Qed.

Lemma prepare_dates (value : bulk_value) :
  Forall (fun r => in_date r = bv_date value) (prepare value).
Proof.
  unfold prepare; apply Forall_forall; intros r Hr.
  apply in_map_iff in Hr as [[sid st] [<- _]]; reflexivity.
Qed.

Definition akey (a : attendance) : string * string := (a_student_id a, a_date a).

Lemma key_is_akey sid date a : key_is sid date a = true <-> akey a = (sid, date).
Proof.
  unfold key_is, akey; rewrite andb_true_iff, !String.eqb_eq; split.
  - intros [-> ->]; reflexivity.
  - intros H; injection H as -> ->; auto.
Qed.

Lemma filter_key_absent sid date l :
  ~ In (sid, date) (map akey l) -> filter (key_is sid date) l = [].
Proof.
  induction l as [|a l IH]; simpl; intros H; [reflexivity|].
  destruct (key_is sid date a) eqn:E.
  - apply key_is_akey in E; tauto.
  - apply IH; tauto.
Qed.

Lemma filter_key_at_most_one sid date l :
  NoDup (map akey l) -> List.length (filter (key_is sid date) l) <= 1.
Proof.
  induction l as [|a l IH]; simpl; intros H; [lia|].
  inversion H as [|? ? Ha Hl]; subst.
  destruct (key_is sid date a) eqn:E; simpl; [|auto].
  apply key_is_akey in E; rewrite E in Ha.
  rewrite filter_key_absent by exact Ha; simpl; lia.
Qed.

Lemma upsert_one_students d v : students (fst (upsert_one d v)) = students d.
Proof. unfold upsert_one; destruct (find _ _); reflexivity. Qed.

(** After upserting [v] there is exactly one row with the key of [v]; it
    carries the status of [v], and the key stays unique. *)
Lemma upsert_one_key d v :
  attendance_unique d ->
  let d' := fst (upsert_one d v) in
  filter (key_is (in_student_id v) (in_date v)) (attendance_tbl d')
    = [mkAtt (a_id (snd (upsert_one d v))) (in_student_id v) (in_date v) (in_status v)]
  /\ attendance_unique d'.
Proof.
  intros Hu; unfold attendance_unique in *; fold akey in *.
  set (k := key_is (in_student_id v) (in_date v)).
  unfold upsert_one; fold k.
  destruct (find k (attendance_tbl d)) as [old|] eqn:Ef; simpl.
  - set (upd := fun a => if k a then mkAtt (a_id a) (a_student_id a) (a_date a) (in_status v) else a).
    assert (Hk : forall a, k (upd a) = k a).
    { intros a; unfold upd; destruct (k a) eqn:E; [|exact E].
      unfold k, key_is in *; simpl; exact E. }
    assert (Hakey : forall a, akey (upd a) = akey a).
    { intros a; unfold upd; destruct (k a); reflexivity. }
    assert (Hf : filter k (map upd (attendance_tbl d)) = map upd (filter k (attendance_tbl d))).
    { clear - Hk; induction (attendance_tbl d) as [|a l IH]; simpl; [reflexivity|].
      rewrite Hk; destruct (k a); simpl; rewrite IH; reflexivity. }
    pose proof (find_some _ _ Ef) as [Hin Hold].
    assert (Hone : filter k (attendance_tbl d) = [old]).
    { pose proof (filter_key_at_most_one (in_student_id v) (in_date v) _ Hu) as Hle.
      fold k in Hle.
      assert (Hin' : In old (filter k (attendance_tbl d))) by (apply filter_In; auto).
      destruct (filter k (attendance_tbl d)) as [|a [|b l]]; simpl in Hle, Hin'; try lia.
      destruct Hin' as [->|[]]; reflexivity. }
    split.
    + rewrite Hf, Hone; simpl; unfold upd; rewrite Hold.
      apply key_is_akey in Hold; unfold akey in Hold; injection Hold as -> ->.
      reflexivity.
    + rewrite map_map; erewrite map_ext by (intros a; apply Hakey); exact Hu.
  - pose proof (find_none _ _ Ef) as Hnone.
    split.
    + rewrite filter_app; unfold k at 1; rewrite filter_key_absent.
      * simpl; unfold k, key_is; simpl; rewrite !String.eqb_refl; reflexivity.
      * intros Hin; apply in_map_iff in Hin as [a [Ha Hin]].
        apply key_is_akey in Ha; fold k in Ha; rewrite (Hnone a Hin) in Ha; discriminate.
    + rewrite map_app; simpl; apply NoDup_app; [exact Hu | repeat constructor; simpl; tauto |].
      intros kv Hkv [<-|[]].
      apply in_map_iff in Hkv as [a [Ha Hin]].
      assert (k a = true) by (apply key_is_akey; exact Ha).
      rewrite (Hnone a Hin) in H; discriminate.
Qed.

Lemma students_eq_single d sid :
  students_pk d -> In sid (map s_id (students d)) ->
  exists s, single (students_eq d sid) = Some s.
Proof.
  unfold students_pk, students_eq; generalize (students d) as l.
  induction l as [|a l IH]; simpl; [tauto|]; intros Hnd Hin.
  inversion Hnd as [|? ? Ha Hl]; subst.
  destruct (String.eqb (s_id a) sid) eqn:E.
  - apply String.eqb_eq in E; subst sid.
    assert (Hnil : filter (fun s => String.eqb (s_id s) (s_id a)) l = []).
    { clear - Ha; induction l as [|b l IH]; simpl in *; [reflexivity|].
      destruct (String.eqb (s_id b) (s_id a)) eqn:E;
        [apply String.eqb_eq in E; tauto | apply IH; tauto]. }
    rewrite Hnil; exists a; reflexivity.
  - destruct Hin as [Hin|Hin]; [apply String.eqb_neq in E; congruence|].
    apply IH; assumption.
Qed.

(** A single write by a known student is the upsert of its row. *)
Lemma post_single_known d v :
  students_pk d -> In (in_student_id v) (map s_id (students d)) ->
  post_single d v = (fst (upsert_one d v), mkResp 201 true "Attendance recorded successfully").
Proof.
  intros Hpk Hin; unfold post_single.
  destruct (students_eq_single d _ Hpk Hin) as [s Hs]; rewrite Hs.
  unfold upsert; destruct (NoDup_dec key_pair_dec (map input_key [v])) as [_|Hn].
  - simpl; destruct (upsert_one d v); reflexivity.
  - exfalso; apply Hn; repeat constructor; simpl; tauto.
Qed.

End StoreFacts.

Module WriteClaims.
Import Store StoreFacts Samples.

(** C4: a bulk submission (already validated) naming a student id that no
    student has is answered 400 "One or more students not found" and leaves
    the store unchanged; the records it prepared all carry the shared date. *)
Theorem bulk_unknown_student_rejected (d : db) (value : bulk_value) (x : string)
  (Hpk : students_pk d)
  (Hx : In x (map fst (bv_records value)))
  (Hunknown : ~ In x (map s_id (students d))) :
  post_bulk d value = (d, mkResp 400 false "One or more students not found")
  /\ Forall (fun r => in_date r = bv_date value) (prepare value).
Proof.
  split; [|apply prepare_dates].
  unfold post_bulk; rewrite prepare_ids.
  pose proof (students_in_missing d _ x Hpk Hx Hunknown) as Hlt.
  destruct (Nat.eqb_spec (List.length (students_in d (map fst (bv_records value))))
                         (List.length (map fst (bv_records value)))); [lia|].
  reflexivity.
Qed.

Lemma bulk_unknown_student_rejected_witness :
  students_pk sample_db
  /\ post_bulk sample_db (mkBulk "2024-01-01" [("s1"%string, Present); ("s9"%string, Absent)])
     = (sample_db, mkResp 400 false "One or more students not found").
Proof.
  assert (Hpk : students_pk sample_db)
    by (unfold students_pk; simpl; repeat constructor; simpl; intuition discriminate).
  split; [exact Hpk|].
  refine (proj1 (bulk_unknown_student_rejected sample_db
                   (mkBulk "2024-01-01" [("s1"%string, Present); ("s9"%string, Absent)]) "s9" Hpk _ _)).
  - simpl; auto.
  - simpl; intuition discriminate.
Defined.

(** C5: with the store invariants holding, two single writes for the same
    existing student and date, with statuses [x] then [y], leave exactly one
    row for that (student, date), with status [y]; the key stays unique. *)
Theorem single_write_twice_one_record (d : db) (s dt : string) (x y : status)
  (Hpk : students_pk d) (Hs : In s (map s_id (students d)))
  (Hu : attendance_unique d) :
  let d2 := fst (post_single (fst (post_single d (mkInput s dt x))) (mkInput s dt y)) in
  exists r, filter (key_is s dt) (attendance_tbl d2) = [r] /\ a_status r = y
  /\ attendance_unique d2.
Proof.
  intros d2; unfold d2.
  rewrite (post_single_known d (mkInput s dt x) Hpk Hs); simpl fst.
  pose proof (upsert_one_key d (mkInput s dt x) Hu) as [_ Hu1]; simpl in Hu1.
  assert (Hpk1 : students_pk (fst (upsert_one d (mkInput s dt x))))
    by (unfold students_pk; rewrite upsert_one_students; exact Hpk).
  assert (Hs1 : In s (map s_id (students (fst (upsert_one d (mkInput s dt x))))))
    by (rewrite upsert_one_students; exact Hs).
  rewrite (post_single_known _ (mkInput s dt y) Hpk1 Hs1); simpl fst.
  pose proof (upsert_one_key _ (mkInput s dt y) Hu1) as [Hf Hu2]; simpl in Hf, Hu2.
  eexists; split; [exact Hf|]; split; [reflexivity|exact Hu2].
Qed.

Lemma single_write_twice_one_record_witness :
  students_pk sample_db /\ In "s1"%string (map s_id (students sample_db))
  /\ attendance_unique sample_db
  /\ exists r, filter (key_is "s1"%string "2024-01-01"%string)
         (attendance_tbl (fst (post_single (fst (post_single sample_db
            (mkInput "s1" "2024-01-01" Absent))) (mkInput "s1" "2024-01-01" Present))))
       = [r] /\ a_status r = Present.
Proof.
  assert (Hpk : students_pk sample_db)
    by (unfold students_pk; simpl; repeat constructor; simpl; intuition discriminate).
  assert (Hs : In "s1"%string (map s_id (students sample_db))) by (simpl; auto).
  assert (Hu : attendance_unique sample_db) by constructor.
  split; [exact Hpk|]; split; [exact Hs|]; split; [exact Hu|].
  destruct (single_write_twice_one_record sample_db "s1"%string "2024-01-01"%string Absent Present Hpk Hs Hu)
    as [r [H1 [H2 _]]].
  exists r; split; assumption.
Defined.

(** C10: a bulk submission whose ids all name existing students but repeat
    one of them is answered 400 "One or more students not found" and leaves
    the store unchanged: the lookup returns each student once, fewer rows
    than submitted ids. *)
Theorem bulk_duplicate_ids_rejected (d : db) (value : bulk_value)
  (Hpk : students_pk d)
  (Hexist : Forall (fun sid => In sid (map s_id (students d))) (map fst (bv_records value)))
  (Hdup : ~ NoDup (map fst (bv_records value))) :
  post_bulk d value = (d, mkResp 400 false "One or more students not found").
Proof.
  unfold post_bulk; rewrite prepare_ids.
  pose proof (students_in_duplicate d _ Hpk Hdup) as Hlt.
  destruct (Nat.eqb_spec (List.length (students_in d (map fst (bv_records value))))
                         (List.length (map fst (bv_records value)))); [lia|].
  reflexivity.
Qed.

Lemma bulk_duplicate_ids_rejected_witness :
  post_bulk sample_db (mkBulk "2024-01-01" [("s1"%string, Present); ("s1"%string, Absent)])
  = (sample_db, mkResp 400 false "One or more students not found").
Proof.
  apply bulk_duplicate_ids_rejected.
  - unfold students_pk; simpl; repeat constructor; simpl; intuition discriminate.
  - simpl; repeat constructor; simpl; auto.
  - simpl; intros H; inversion H as [|? ? Hn _]; apply Hn; simpl; auto.
Defined.

End WriteClaims.

Module ClassViewFacts.
Import Store StoreFacts ClassView.

Lemma insert_by_name_perm s l : Permutation (insert_by_name s l) (s :: l).
Proof.
  induction l as [|s' l IH]; simpl; [reflexivity|].
  destruct (name_le s s'); [reflexivity|].
  rewrite IH; apply perm_swap.
Qed.

Lemma order_by_name_perm l : Permutation (order_by_name l) l.
Proof.
  induction l as [|s l IH]; simpl; [reflexivity|].
  rewrite insert_by_name_perm, IH; reflexivity.
Qed.

Lemma insert_by_name_sorted s l :
  Sorted (fun a b => name_le a b = true) l ->
  Sorted (fun a b => name_le a b = true) (insert_by_name s l).
Proof.
  intros H; induction H as [|s' l Hl IH Hhd]; simpl.
  - repeat constructor.
  - destruct (name_le s s') eqn:E.
    + constructor; [constructor; assumption | constructor; exact E].
    + assert (E' : name_le s' s = true).
      { unfold name_le in *; destruct (String.leb_total (s_name s) (s_name s')); congruence. }
      constructor; [exact IH|].
      destruct l as [|s'' l]; simpl; [constructor; exact E'|].
      inversion Hhd; subst.
      destruct (name_le s s''); constructor; assumption.
Qed.

Lemma order_by_name_sorted l : Sorted (fun a b => name_le a b = true) (order_by_name l).
Proof.
  induction l as [|s l IH]; simpl; [constructor|].
  apply insert_by_name_sorted; exact IH.
Qed.

Lemma find_join sid date ids tbl :
  In sid ids ->
  find (fun a => String.eqb (a_student_id a) sid)
    (filter (fun a => existsb (String.eqb (a_student_id a)) ids
                      && String.eqb (a_date a) date) tbl)
  = find (key_is sid date) tbl.
Proof.
  intros Hin; induction tbl as [|a tbl IH]; simpl; [reflexivity|].
  unfold key_is at 1.
  destruct (String.eqb (a_student_id a) sid) eqn:E1.
  - apply String.eqb_eq in E1; subst sid.
    assert (Hx : existsb (String.eqb (a_student_id a)) ids = true)
      by (apply ChartsFacts.existsb_eqb_In; exact Hin).
    rewrite Hx; simpl.
    destruct (String.eqb (a_date a) date); simpl; [rewrite String.eqb_refl; reflexivity | exact IH].
  - destruct (existsb (String.eqb (a_student_id a)) ids && String.eqb (a_date a) date);
      simpl; [rewrite E1|]; exact IH.
Qed.

Lemma NoDup_map_same_key {A B} (f : A -> B) (l : list A) a a' :
  NoDup (map f l) -> In a l -> In a' l -> f a = f a' -> a = a'.
Proof.
  induction l as [|x l IH]; simpl; [tauto|].
  intros Hnd Ha Ha' Hf; inversion Hnd as [|? ? Hx Hl]; subst.
  destruct Ha as [<-|Ha], Ha' as [<-|Ha']; auto.
  - exfalso; apply Hx; rewrite Hf; apply in_map; exact Ha'.
  - exfalso; apply Hx; rewrite <- Hf; apply in_map; exact Ha.
Qed.

End ClassViewFacts.

Module ViewClaims.
Import Store StoreFacts ClassView ClassViewFacts Samples.

(** C6: the class-and-date view lists the students of the class, ordered
    by name, one entry each; under the [UNIQUE(student_id, date)]
    invariant an entry carries [{id, status, date}] of the student's row on
    that date when there is one, and [null] exactly when there is none. *)
Theorem class_view_left_join (d : db) (classId date : string)
  (Hu : attendance_unique d) :
  let cls := filter (fun s => String.eqb (s_class_id s) classId) (students d) in
  let v := class_attendance_for_date d classId date in
  map swa_student v = order_by_name cls
  /\ Permutation (map swa_student v) cls
  /\ Sorted (fun a b => name_le a b = true) (map swa_student v)
  /\ Forall (fun e =>
       (forall a, In a (attendance_tbl d) -> key_is (s_id (swa_student e)) date a = true ->
          swa_attendance e = Some (mkView (a_id a) (a_status a) (a_date a)))
       /\ (swa_attendance e = None <->
           forall a, In a (attendance_tbl d) -> key_is (s_id (swa_student e)) date a = false))
     v.
Proof.
  intros cls v.
  assert (Hmap : map swa_student v = order_by_name cls).
  { unfold v, class_attendance_for_date; rewrite map_map; apply map_id. }
  split; [exact Hmap|]. split; [rewrite Hmap; apply order_by_name_perm|].
  split; [rewrite Hmap; apply order_by_name_sorted|].
  apply Forall_forall; intros e He.
  unfold v, class_attendance_for_date in He; fold cls in He.
  apply in_map_iff in He as [s [<- Hs]]; simpl.
  rewrite find_join by (apply in_map; exact Hs).
  split.
  - intros a Ha Hk.
    destruct (find (key_is (s_id s) date) (attendance_tbl d)) as [a'|] eqn:Ef.
    + apply find_some in Ef as [Ha' Hk'].
      assert (a' = a); [|subst; reflexivity].
      apply (NoDup_map_same_key akey _ _ _ Hu Ha' Ha).
      apply key_is_akey in Hk, Hk'; congruence.
    + rewrite (find_none _ _ Ef a Ha) in Hk; discriminate.
  - destruct (find (key_is (s_id s) date) (attendance_tbl d)) as [a'|] eqn:Ef; split.
    + discriminate.
    + intros Hall; apply find_some in Ef as [Ha' Hk']; rewrite (Hall a' Ha') in Hk'; discriminate.
    + intros _ a Ha; exact (find_none _ _ Ef a Ha).
    + reflexivity.
Qed.

(** Students [A, B] of class c1, a row only for A on 2024-01-01. *)
Lemma class_view_left_join_witness :
  attendance_unique view_db
  /\ class_attendance_for_date view_db "c1" "2024-01-01"
     = [mkSWA (mkStudent "s1" "A" "c1") (Some (mkView 0 Late "2024-01-01"));
        mkSWA (mkStudent "s2" "B" "c1") None]
  /\ map swa_student (class_attendance_for_date view_db "c1" "2024-01-01")
     = order_by_name (filter (fun s => String.eqb (s_class_id s) "c1") (students view_db)).
Proof.
  assert (Hu : attendance_unique view_db).
  { unfold attendance_unique; simpl; repeat constructor; simpl; intuition discriminate. }
  split; [exact Hu|]. split; [reflexivity|].
  exact (proj1 (class_view_left_join view_db "c1" "2024-01-01" Hu)).
Defined.

End ViewClaims.

Module ClassClaims.
Import Store Classes.

(** A class some student belongs to is not deleted: 400, store unchanged. *)
Lemma delete_class_with_students (d : db) (id : string) (s : student) :
  In s (students d) -> s_class_id s = id ->
  delete_class d id = (d, mkResp 400 false "Cannot delete class with existing students").
Proof.
  intros Hs Hc; unfold delete_class.
  assert (Hin : In s (filter (fun s => String.eqb (s_class_id s) id) (students d)))
    by (apply filter_In; rewrite Hc, String.eqb_refl; auto).
  destruct (filter _ (students d)) as [|x l]; [contradiction|reflexivity].
Qed.

(** An existing class without students is deleted. *)
Lemma delete_class_without_students (d : db) (c : class_row) :
  filter (fun c' => String.eqb (c_id c') (c_id c)) (classes d) = [c] ->
  Forall (fun s => s_class_id s <> c_id c) (students d) ->
  delete_class d (c_id c) =
  (delete_class_rows d (c_id c), mkResp 200 true "Class deleted successfully").
Proof.
  intros Hc Hs; unfold delete_class.
  assert (Hnil : filter (fun s => String.eqb (s_class_id s) (c_id c)) (students d) = []).
  { induction (students d) as [|x l IH]; simpl; [reflexivity|].
    inversion Hs; subst.
    destruct (String.eqb (s_class_id x) (c_id c)) eqn:E;
      [apply String.eqb_eq in E; contradiction | auto]. }
  rewrite Hnil, Hc; reflexivity.
Qed.

(** C7 (code defect): deleting a class id that names no class, and that no
    student references, is answered 500 "Failed to delete class": the
    [.single()] error is thrown before the [if (!data)] not-found branch. *)
Theorem delete_missing_class_is_500 :
  delete_class Samples.sample_db "c9"
  = (Samples.sample_db, mkResp 500 false "Failed to delete class").
Proof. reflexivity. Qed.

End ClassClaims.

Module ListClaims.
Import AttendanceList.

(** C9 (code defect): with [?limit=10&offset=20] the handler computes
    [offset + limit - 1] on the query strings: ["20" + "10" - 1 = 2009],
    so supabase-js asks for 1990 rows from position 20, not the 10 rows
    20..29; on 35 matching rows the page has 15 rows. The class filter
    [students.class_id] only blanks the embedded student: a row of class
    c2 is still returned for [?class_id=c1]. *)
Theorem list_page_string_arithmetic (tbl : list arow) :
  let q := mkQuery None None None None None None (Some "10"%string) (Some "20"%string) in
  list_attendance tbl q
  = Some (map (embed q) (firstn 1990 (skipn 20 (order_rows (filter (keep q) tbl)))))
  /\ option_map (@List.length out_row)
       (list_attendance (map (fun i => mkARow i "s1" "c1" "2024-01-01" Present i) (seq 0 35)) q)
     = Some 15
  /\ list_attendance [mkARow 0 "s3" "c2" "2024-01-01" Present 0]
       (mkQuery None (Some "c1"%string) None None None None None None)
     = Some [mkOut (mkARow 0 "s3" "c2" "2024-01-01" Present 0) None].
Proof.
  intros q; split; [|split]; vm_compute; reflexivity.
Qed.

End ListClaims.

Module JoiFacts.
Import Joi JoiSpec.
Local Open Scope string_scope.

Lemma insert_index_perm {V} (kv : string * V) l :
  Permutation (JsObject.insert_index V kv l) (kv :: l).
Proof.
  induction l as [|kv' l IH]; simpl; [reflexivity|].
  destruct (N.leb _ _); [reflexivity|].
  rewrite IH; apply perm_swap.
Qed.

Lemma filter_split_perm {A} (f : A -> bool) (l : list A) :
  Permutation (filter f l ++ filter (fun x => negb (f x)) l) l.
Proof.
  induction l as [|a l IH]; simpl; [reflexivity|].
  destruct (f a); simpl.
  - constructor; exact IH.
  - rewrite <- Permutation_middle; constructor; exact IH.
Qed.

Lemma entries_perm {V} (o : JsObject.t V) : Permutation (JsObject.entries o) o.
Proof.
  unfold JsObject.entries.
  assert (H : forall l : list (string * V),
             Permutation (fold_right (JsObject.insert_index V) [] l) l).
  { induction l as [|kv l IH]; simpl; [reflexivity|].
    rewrite insert_index_perm, IH; reflexivity. }
  rewrite H; apply filter_split_perm.
Qed.

Definition field_ok (o : JsObject.t json) (kr : string * rule) : Prop :=
  snd kr (JsObject.get o (fst kr)) = None.

Lemma first_error_none schema o :
  first_error schema o = None <-> Forall (field_ok o) schema.
Proof.
  induction schema as [|[k r] schema IH]; simpl.
  - split; constructor.
  - unfold field_ok at 1; simpl.
    destruct (r (JsObject.get o k)) eqn:E.
    + split; [discriminate | intros H; inversion H; unfold field_ok in *; simpl in *; congruence].
    + rewrite IH; split; [intros; constructor; auto | intros H; inversion H; auto].
Qed.

Lemma first_error_some schema o e :
  first_error schema o = Some e ->
  exists pre r rest, schema = (pre ++ (e_key e, r) :: rest)%list
    /\ Forall (field_ok o) pre /\ r (JsObject.get o (e_key e)) = Some (e_type e).
Proof.
  induction schema as [|[k r] schema IH]; simpl; [discriminate|].
  destruct (r (JsObject.get o k)) eqn:E.
  - intros H; injection H as <-; exists [], r, schema; simpl; auto.
  - intros H; destruct (IH H) as [pre [r' [rest [-> [Hpre Hr]]]]].
    exists ((k, r) :: pre), r', rest; simpl; repeat split; auto.
Qed.

Lemma validate_none schema p :
  validate_object schema p = None <->
  exists kvs, p = JObject kvs
    /\ Forall (field_ok (parse_object kvs)) schema
    /\ only_keys (parse_object kvs) (map fst schema).
Proof.
  destruct p as [| | | | |kvs]; simpl;
    try (split; [discriminate | intros [kvs [H _]]; discriminate]).
  set (o := parse_object kvs).
  destruct (first_error schema o) as [e|] eqn:Ef.
  - split; [discriminate|].
    intros [kvs' [Hk [Hall _]]]; injection Hk as <-.
    apply first_error_none in Hall; fold o in Hall; congruence.
  - apply first_error_none in Ef.
    destruct (find _ _) as [k|] eqn:Eu.
    + split; [discriminate|].
      intros [kvs' [Hk [_ Honly]]]; injection Hk as <-; fold o in Honly.
      apply find_some in Eu as [Hin Hneg].
      assert (Hin' : In k (map fst o))
        by (apply (Permutation_in _ (Permutation_map fst (entries_perm o))); exact Hin).
      specialize (Honly k Hin').
      apply (proj2 (ChartsFacts.existsb_eqb_In k _)) in Honly.
      rewrite Honly in Hneg; discriminate.
    + split; [intros _|reflexivity].
      exists kvs; split; [reflexivity|]; split; [exact Ef|].
      intros k Hk.
      assert (Hin : In k (map fst (JsObject.entries o))).
      { apply (Permutation_in _ (Permutation_map fst (Permutation_sym (entries_perm o)))).
        exact Hk. }
      pose proof (find_none _ _ Eu k Hin) as Hn.
      apply negb_false_iff, ChartsFacts.existsb_eqb_In in Hn; exact Hn.
Qed.

Lemma validate_some_names schema p e :
  validate_object schema p = Some e -> names_first_offending schema p e.
Proof.
  unfold names_first_offending.
  destruct p as [| | | | |kvs]; simpl;
    try (intros H; injection H as <-; left; split; [intros kvs; discriminate | reflexivity]).
  set (o := parse_object kvs).
  destruct (first_error schema o) as [e'|] eqn:Ef.
  - intros H; injection H as <-; right; left.
    destruct (first_error_some _ _ _ Ef) as [pre [r [rest [Hs [Hpre Hr]]]]].
    exists kvs, pre, r, rest; repeat split; auto.
  - destruct (find _ _) as [k|] eqn:Eu; [|discriminate].
    intros H; injection H as <-; right; right.
    apply first_error_none in Ef.
    apply find_some in Eu as [Hin Hneg].
    exists kvs; simpl; repeat split; [exact Ef | |].
    + apply (Permutation_in _ (Permutation_map fst (entries_perm o))); exact Hin.
    + intros Hk; apply (proj2 (ChartsFacts.existsb_eqb_In k _)) in Hk.
      rewrite Hk in Hneg; discriminate.
Qed.

Lemma Qle_bool_compat a a' b b' :
  (a == a')%Q -> (b == b')%Q -> Qle_bool a b = Qle_bool a' b'.
Proof.
  intros Ha Hb; apply eq_true_iff_eq; rewrite !Qle_bool_iff, Ha, Hb; reflexivity.
Qed.

Lemma Qle_bool_inject_Z a b : Qle_bool (inject_Z a) (inject_Z b) = Z.leb a b.
Proof.
  apply eq_true_iff_eq; rewrite Qle_bool_iff, Z.leb_le, Zle_Qle; reflexivity.
Qed.

Lemma joi_string_range uu lo hi v :
  1 <= lo -> joi_string uu (Some lo) (Some hi) false v = None <-> str_len_in v lo hi.
Proof.
  intros Hlo; unfold str_len_in.
  destruct v as [[| | | s | |]|]; simpl;
    try (split; [discriminate | intros [s' [H _]]; discriminate]).
  destruct (String.eqb_spec s "") as [->|Hs].
  - split; [discriminate|]. intros [s' [H Hl]]; injection H as <-; simpl in Hl; lia.
  - destruct (Nat.ltb_spec (String.length s) lo) as [L1|L1];
      [|destruct (Nat.ltb_spec hi (String.length s)) as [L2|L2]].
    + split; [discriminate|]. intros [s' [H Hl]]; injection H as <-; lia.
    + split; [discriminate|]. intros [s' [H Hl]]; injection H as <-; lia.
    + simpl; split; [intros _; exists s; split; [reflexivity | lia] | reflexivity].
Qed.

Lemma joi_string_uuid uu v :
  joi_string uu None None true v = None <-> uuid_str uu v.
Proof.
  unfold uuid_str.
  destruct v as [[| | | s | |]|]; simpl;
    try (split; [discriminate | intros [s' [H _]]; discriminate]).
  destruct (String.eqb_spec s "") as [->|Hs].
  - split; [discriminate|]. intros [s' [H [Hne _]]]; injection H as <-; congruence.
  - destruct (uu s) eqn:Eu; simpl.
    + split; [intros _; exists s; auto | reflexivity].
    + split; [discriminate|]. intros [s' [H [_ Hu]]]; injection H as <-; congruence.
Qed.

Lemma joi_valid_one_of l v : joi_valid l v = None <-> one_of v l.
Proof.
  unfold one_of.
  destruct v as [[| | | s | |]|]; simpl;
    try (split; [discriminate | intros [s' [H _]]; discriminate]).
  destruct (existsb (String.eqb s) l) eqn:E.
  - apply ChartsFacts.existsb_eqb_In in E.
    split; [intros _; exists s; auto | reflexivity].
  - split; [discriminate|]. intros [s' [H Hin]]; injection H as <-.
    apply ChartsFacts.existsb_eqb_In in Hin; congruence.
Qed.

Lemma joi_int_range_iff cn lo hi v :
  (0 <= lo)%Z -> (hi <= 9007199254740991)%Z ->
  joi_int_range cn lo hi v = None <-> int_in cn v lo hi.
Proof.
  intros Hlo Hhi; unfold int_in.
  assert (Hv : joi_int_range cn lo hi v =
    match v with
    | None => Some "any.required"
    | Some _ =>
      match num_value cn v with
      | None => Some "number.base"
      | Some q =>
          if Qlt_bool max_safe q || Qlt_bool q (- max_safe) then Some "number.unsafe"
          else if negb (Pos.eqb (Qden (Qred q)) 1) then Some "number.integer"
          else if Qlt_bool q (inject_Z lo) then Some "number.min"
          else if Qlt_bool (inject_Z hi) q then Some "number.max"
          else None
      end
    end) by (destruct v as [[]|]; reflexivity).
  rewrite Hv; clear Hv.
  destruct v as [j|].
  2:{ split; [discriminate | intros [q [z [H _]]]; discriminate]. }
  destruct (num_value cn (Some j)) as [q|] eqn:En.
  2:{ split; [discriminate | intros [q [z [H _]]]; discriminate]. }
  unfold Qlt_bool, max_safe; split.
  - destruct (Qle_bool q (inject_Z 9007199254740991)) eqn:E1; [|discriminate].
    destruct (Qle_bool (- inject_Z 9007199254740991) q) eqn:E2; [|discriminate].
    simpl.
    destruct (Qred q) as [a b] eqn:Er; simpl.
    destruct b as [b|b|]; simpl; [discriminate|discriminate|].
    assert (Hq : (q == inject_Z a)%Q)
      by (rewrite <- (Qred_correct q), Er; reflexivity).
    rewrite (Qle_bool_compat _ _ _ _ (Qeq_refl _) Hq), Qle_bool_inject_Z.
    rewrite (Qle_bool_compat _ _ _ _ Hq (Qeq_refl _)), Qle_bool_inject_Z.
    destruct (Z.leb_spec lo a); [|discriminate].
    destruct (Z.leb_spec a hi); [|discriminate].
    intros _; exists q, a; repeat split; auto.
  - intros [q' [z [Hq' [Hq Hz]]]]; injection Hq' as <-.
    rewrite (Qle_bool_compat _ _ _ _ Hq (Qeq_refl _)), Qle_bool_inject_Z.
    rewrite <- inject_Z_opp.
    rewrite (Qle_bool_compat _ _ _ _ (Qeq_refl _) Hq), Qle_bool_inject_Z.
    rewrite (Qle_bool_compat _ _ _ _ (Qeq_refl _) Hq), Qle_bool_inject_Z.
    rewrite (Qle_bool_compat _ _ _ _ Hq (Qeq_refl _)), Qle_bool_inject_Z.
    rewrite (Qred_complete _ _ Hq), Qred_identity by (simpl; apply Z.gcd_1_r).
    repeat rewrite (proj2 (Z.leb_le _ _)) by lia.
    reflexivity.
Qed.

Lemma joi_date_max dt now v :
  joi_date dt (Some now) v = None <-> date_not_after_now dt now v.
Proof.
  unfold date_not_after_now.
  destruct v as [j|]; simpl.
  2:{ split; [discriminate | intros [j [t [H _]]]; discriminate]. }
  destruct (dt j) as [t|] eqn:Ed.
  2:{ split; [discriminate | intros [j' [t [H [Hd _]]]]; injection H as <-; congruence]. }
  destruct (Z.ltb_spec now t) as [L|L].
  - split; [discriminate|]. intros [j' [t' [H [Hd Ht]]]]; injection H as <-.
    rewrite Ed in Hd; injection Hd as <-; lia.
  - split; [intros _; exists j, t; auto | reflexivity].
Qed.

Lemma joi_date_valid dt v : joi_date dt None v = None <-> date_valid dt v.
Proof.
  unfold date_valid.
  destruct v as [j|]; simpl.
  2:{ split; [discriminate | intros [j [t [H _]]]; discriminate]. }
  destruct (dt j) as [t|] eqn:Ed.
  - split; [intros _; exists j, t; auto | reflexivity].
  - split; [discriminate | intros [j' [t [H Hd]]]; injection H as <-; congruence].
Qed.

End JoiFacts.

Module JoiClaims.
Import Joi JoiSpec JoiFacts.
Local Open Scope string_scope.

(** C8 (counterexample): a Student payload meeting every condition the
    claim lists (name of length 2..100, gender Male, date of birth not
    after today) is still rejected: [class_id] is required by the schema,
    and the error names it. *)
Lemma student_without_class_id_rejected :
  let p := JObject [("name", JString "Ani"); ("gender", JString "Female");
                    ("date_of_birth", JString "2010-05-01")] in
  student_ok_as_claimed sample_date_of sample_now p
  /\ validate_object (studentSchema sample_date_of sample_is_uuid sample_now) p
     = Some (mkErr "class_id" "any.required").
Proof.
  split.
  - eexists; split; [reflexivity|]; simpl.
    split; [|split].
    + exists "Ani"; split; [reflexivity | simpl; lia].
    + exists "Female"; split; [reflexivity | simpl; tauto].
    + eexists; exists 1272672000000%Z; split; [reflexivity|].
      split; [vm_compute; reflexivity | vm_compute; discriminate].
  - vm_compute; reflexivity.
Qed.

(** C8 (amended): for every payload, each schema accepts exactly the
    objects that have only the schema's keys and satisfy all of its
    conditions: Class: [class_name] a string of 1..50 characters and
    [grade] a number (or numeric string) equal to an integer in 1..12;
    Student: [name] a string of 2..100 characters, [class_id] a non-empty
    UUID string, [gender] Male or Female, [date_of_birth] a date not after
    now; Attendance: [student_id] a non-empty UUID string, [date] a valid
    date, [status] one of Present, Absent, Late, Excused. Every rejection
    names the first offending key in the schema's order (or [value] for a
    body that is no object, or a key the schema does not have once every
    schema key passed). *)
Theorem joi_validation_exact (cn : string -> option Q) (dt : json -> option Z)
  (uu : string -> bool) (now : Z) (p : json) :
  (validate_object (classSchema cn) p = None <-> class_payload_ok cn p)
  /\ (validate_object (studentSchema dt uu now) p = None
      <-> student_payload_ok dt uu now p)
  /\ (validate_object (attendanceSchema dt uu) p = None
      <-> attendance_payload_ok dt uu p)
  /\ (forall e, validate_object (classSchema cn) p = Some e ->
        names_first_offending (classSchema cn) p e)
  /\ (forall e, validate_object (studentSchema dt uu now) p = Some e ->
        names_first_offending (studentSchema dt uu now) p e)
  /\ (forall e, validate_object (attendanceSchema dt uu) p = Some e ->
        names_first_offending (attendanceSchema dt uu) p e).
Proof.
  split; [|split; [|split; [|split; [|split]]]];
    try (intros e; apply validate_some_names).
  - rewrite validate_none; unfold class_payload_ok; split.
    + intros [kvs [-> [Hall Honly]]]; exists kvs; split; [reflexivity|].
      apply Forall_cons_iff in Hall as [H1 Hall2]; apply Forall_cons_iff in Hall2 as [H2 _].
      split; [exact Honly|]; split.
      * apply (joi_string_range (fun _ => true) 1 50); [lia | exact H1].
      * apply joi_int_range_iff; [lia | lia | exact H2].
    + intros [kvs [-> [Honly [H1 H2]]]]; exists kvs; split; [reflexivity|].
      split; [|exact Honly].
      repeat constructor; unfold field_ok; cbn [fst snd].
      * apply (joi_string_range (fun _ => true) 1 50); [lia | exact H1].
      * apply joi_int_range_iff; [lia | lia | exact H2].
  - rewrite validate_none; unfold student_payload_ok; split.
    + intros [kvs [-> [Hall Honly]]]; exists kvs; split; [reflexivity|].
      apply Forall_cons_iff in Hall as [H1 Hall2]; apply Forall_cons_iff in Hall2 as [H2 Hall3];
        apply Forall_cons_iff in Hall3 as [H3 Hall4]; apply Forall_cons_iff in Hall4 as [H4 _].
      split; [exact Honly|]; split; [|split; [|split]].
      * apply (joi_string_range uu 2 100); [lia | exact H1].
      * apply joi_string_uuid; exact H2.
      * apply joi_valid_one_of; exact H3.
      * apply joi_date_max; exact H4.
    + intros [kvs [-> [Honly [H1 [H2 [H3 H4]]]]]]; exists kvs; split; [reflexivity|].
      split; [|exact Honly].
      repeat constructor; unfold field_ok; cbn [fst snd].
      * apply (joi_string_range uu 2 100); [lia | exact H1].
      * apply joi_string_uuid; exact H2.
      * apply joi_valid_one_of; exact H3.
      * apply joi_date_max; exact H4.
  - rewrite validate_none; unfold attendance_payload_ok; split.
    + intros [kvs [-> [Hall Honly]]]; exists kvs; split; [reflexivity|].
      apply Forall_cons_iff in Hall as [H1 Hall2]; apply Forall_cons_iff in Hall2 as [H2 Hall3];
        apply Forall_cons_iff in Hall3 as [H3 _].
      split; [exact Honly|]; split; [|split].
      * apply joi_string_uuid; exact H1.
      * apply joi_date_valid; exact H2.
      * apply joi_valid_one_of; exact H3.
    + intros [kvs [-> [Honly [H1 [H2 H3]]]]]; exists kvs; split; [reflexivity|].
      split; [|exact Honly].
      repeat constructor; unfold field_ok; cbn [fst snd].
      * apply joi_string_uuid; exact H1.
      * apply joi_date_valid; exact H2.
      * apply joi_valid_one_of; exact H3.
Qed.

End JoiClaims.

Module SortFacts.

Section S.
Variable A : Type.
Variable le : A -> A -> bool.

Lemma insert_perm x l : Permutation (Sort.insert le x l) (x :: l).
Proof.
  induction l as [|y l IH]; simpl; [reflexivity|].
  destruct (le x y); [reflexivity|].
  rewrite IH; apply perm_swap.
Qed.

Lemma sort_perm l : Permutation (Sort.sort le l) l.
Proof.
  induction l as [|y l IH]; simpl; [reflexivity|].
  rewrite insert_perm, IH; reflexivity.
Qed.

Hypothesis le_flip : forall a b, le a b = false -> le b a = true.

Lemma insert_sorted x l :
  Sorted (fun a b => le a b = true) l -> Sorted (fun a b => le a b = true) (Sort.insert le x l).
Proof.
  induction 1 as [|y l Hl IH Hhd]; simpl; [repeat constructor|].
  destruct (le x y) eqn:Exy; [constructor; [constructor; assumption | constructor; exact Exy]|].
  constructor; [exact IH|].
  destruct l as [|z l]; simpl; [constructor; apply le_flip; exact Exy|].
  inversion Hhd; subst.
  destruct (le x z); constructor; [apply le_flip; exact Exy | assumption].
Qed.

Lemma sort_sorted l : Sorted (fun a b => le a b = true) (Sort.sort le l).
Proof.
  induction l as [|y l IH]; simpl; [constructor|].
  apply insert_sorted; exact IH.
Qed.

End S.

Lemma class_le_flip a b :
  ClassRoutes.class_le a b = false -> ClassRoutes.class_le b a = true.
Proof.
  unfold ClassRoutes.class_le.
  destruct (Z.ltb_spec (Store.c_grade a) (Store.c_grade b)) as [L|L]; [discriminate|].
  destruct (Z.ltb_spec (Store.c_grade b) (Store.c_grade a)) as [L'|L']; [reflexivity|].
  assert (E : Store.c_grade a = Store.c_grade b) by lia.
  rewrite E, Z.eqb_refl; simpl; intros H.
  destruct (String.leb_total (Store.c_class_name a) (Store.c_class_name b)); congruence.
Qed.

Lemma date_desc_flip a b : ClientDb.date_desc a b = false -> ClientDb.date_desc b a = true.
Proof.
  unfold ClientDb.date_desc; intros H.
  destruct (String.leb_total (AttendanceList.l_date a) (AttendanceList.l_date b)); congruence.
Qed.

Lemma before_flip a b : AttendanceList.before a b = false -> AttendanceList.before b a = true.
Proof.
  unfold AttendanceList.before.
  intros H; apply orb_false_iff in H as [H1 H2]; apply negb_false_iff in H1.
  destruct (String.leb (AttendanceList.l_date b) (AttendanceList.l_date a)) eqn:E; simpl;
    [|reflexivity].
  pose proof (String.leb_antisym _ _ H1 E) as Hd; rewrite Hd in *.
  rewrite String.eqb_refl in *; simpl in *.
  apply Nat.leb_le; apply Nat.leb_gt in H2; lia.
Qed.

Lemma insert_row_is_sort r l : AttendanceList.insert_row r l = Sort.insert AttendanceList.before r l.
Proof. induction l as [|r' l IH]; simpl; [reflexivity|]; rewrite IH; reflexivity. Qed.

Lemma order_rows_is_sort l : AttendanceList.order_rows l = Sort.sort AttendanceList.before l.
Proof.
  induction l as [|r l IH]; simpl; [reflexivity|].
  rewrite insert_row_is_sort; unfold Sort.sort in *; simpl; rewrite IH; reflexivity.
Qed.

End SortFacts.

Module CountFacts.
Import Charts ChartsFacts.

Lemma list_sum_add {A} (f g : A -> nat) l :
  list_sum (map (fun x => f x + g x) l) = list_sum (map f l) + list_sum (map g l).
Proof. induction l as [|x l IH]; simpl; [reflexivity|]; rewrite IH; lia. Qed.

Lemma list_sum_indicator_out y ks :
  ~ In y ks -> list_sum (map (fun k => if String.eqb y k then 1 else 0) ks) = 0.
Proof.
  induction ks as [|k ks IH]; simpl; [reflexivity|]; intros Hn.
  destruct (String.eqb_spec y k) as [->|]; [tauto|]; rewrite IH; tauto.
Qed.

Lemma list_sum_indicator_in y ks :
  NoDup ks -> In y ks -> list_sum (map (fun k => if String.eqb y k then 1 else 0) ks) = 1.
Proof.
  induction ks as [|k ks IH]; simpl; [tauto|]; intros Hnd Hin.
  apply NoDup_cons_iff in Hnd as [Hk Hnd].
  destruct (String.eqb_spec y k) as [->|Hne].
  - rewrite list_sum_indicator_out by exact Hk; reflexivity.
  - destruct Hin as [Hin|Hin]; [congruence|]; simpl; apply IH; assumption.
Qed.

Lemma list_sum_perm l l' : Permutation l l' -> list_sum l = list_sum l'.
Proof. induction 1; simpl; lia. Qed.

Lemma length_filter_snoc {A} (p : A -> bool) l x :
  List.length (filter p (l ++ [x])) = List.length (filter p l) + (if p x then 1 else 0).
Proof. rewrite filter_app, length_app; simpl; destruct (p x); reflexivity. Qed.

Lemma length_filter_none {A} (p : A -> bool) l :
  (forall x, In x l -> p x = false) -> List.length (filter p l) = 0.
Proof.
  induction l as [|x l IH]; simpl; [reflexivity|]; intros H.
  rewrite (H x (or_introl eq_refl)); apply IH; auto.
Qed.

(** The per-key counts of the keys in order of first occurrence add up
    to the length of the list. *)
Lemma sum_counts_first_seen {A} (f : A -> string) (l : list A) :
  list_sum (map (fun k => List.length (filter (fun x => String.eqb (f x) k) l))
              (first_seen (map f l)))
  = List.length l.
Proof.
  induction l as [|x l IH] using rev_ind; [reflexivity|].
  replace (map f (l ++ [x])) with (map f l ++ [f x]) by (rewrite map_app; reflexivity).
  rewrite first_seen_snoc, length_app; simpl.
  assert (Hc : forall k, List.length (filter (fun y => String.eqb (f y) k) (l ++ [x]))
                         = List.length (filter (fun y => String.eqb (f y) k) l)
                           + (if String.eqb (f x) k then 1 else 0))
    by (intros k; exact (length_filter_snoc (fun y => String.eqb (f y) k) l x)).
  destruct (existsb (String.eqb (f x)) (first_seen (map f l))) eqn:E.
  - apply existsb_eqb_In in E.
    rewrite (map_ext _ _ Hc), list_sum_add, IH.
    rewrite list_sum_indicator_in by (apply NoDup_first_seen || exact E); reflexivity.
  - assert (Hn : ~ In (f x) (first_seen (map f l)))
      by (intros Hin; apply existsb_eqb_In in Hin; congruence).
    rewrite map_app, list_sum_app; simpl.
    rewrite (map_ext _ _ Hc), list_sum_add, IH, list_sum_indicator_out by exact Hn.
    rewrite Hc, String.eqb_refl.
    rewrite (length_filter_none _ l); [lia|].
    intros y Hy; apply String.eqb_neq; intros Hfy; apply Hn.
    apply In_first_seen; rewrite <- Hfy; apply in_map; exact Hy.
Qed.

(** A dictionary whose keys are distinct is the map of its keys. *)
Lemma obj_as_map {V} (o : JsObject.t V) (g : string -> V) :
  NoDup (map fst o) -> (forall k, In k (map fst o) -> JsObject.get o k = Some (g k)) ->
  o = map (fun k => (k, g k)) (map fst o).
Proof.
  induction o as [|[k v] o IH]; simpl; [reflexivity|]; intros Hnd Hg.
  apply NoDup_cons_iff in Hnd as [Hk Hnd].
  pose proof (Hg k (or_introl eq_refl)) as Hv; rewrite String.eqb_refl in Hv.
  injection Hv as ->; f_equal; apply IH; [exact Hnd|].
  intros k' Hk'; rewrite <- Hg by (right; exact Hk').
  destruct (String.eqb_spec k' k) as [->|]; [tauto | reflexivity].
Qed.

Lemma set_map_in {V} (ks : list string) (g : string -> V) y v :
  NoDup ks -> In y ks ->
  JsObject.set (map (fun k => (k, g k)) ks) y v
  = map (fun k => (k, if String.eqb k y then v else g k)) ks.
Proof.
  induction ks as [|k ks IH]; simpl; [tauto|]; intros Hnd Hin.
  apply NoDup_cons_iff in Hnd as [Hk Hnd].
  destruct (String.eqb_spec y k) as [->|Hne].
  - rewrite String.eqb_refl; f_equal.
    apply map_ext_in; intros k' Hk'.
    destruct (String.eqb_spec k' k) as [->|]; [tauto | reflexivity].
  - destruct (String.eqb_spec k y) as [->|]; [congruence|].
    destruct Hin as [->|Hin]; [congruence|].
    f_equal; apply IH; assumption.
Qed.

Lemma set_map_out {V} (ks : list string) (g : string -> V) y v :
  ~ In y ks ->
  JsObject.set (map (fun k => (k, g k)) ks) y v = map (fun k => (k, g k)) ks ++ [(y, v)].
Proof.
  induction ks as [|k ks IH]; simpl; [reflexivity|]; intros Hn.
  destruct (String.eqb_spec y k) as [->|]; [tauto|].
  f_equal; apply IH; tauto.
Qed.

Lemma get_map_in {V} (ks : list string) (g : string -> V) y :
  In y ks -> JsObject.get (map (fun k => (k, g k)) ks) y = Some (g y).
Proof.
  induction ks as [|k ks IH]; simpl; [tauto|]; intros Hin.
  destruct (String.eqb_spec y k) as [->|Hne]; [reflexivity|].
  destruct Hin as [->|Hin]; [congruence | apply IH; exact Hin].
Qed.

Lemma get_map_out {V} (ks : list string) (g : string -> V) y :
  ~ In y ks -> JsObject.get (map (fun k => (k, g k)) ks) y = None.
Proof.
  induction ks as [|k ks IH]; simpl; [reflexivity|]; intros Hn.
  destruct (String.eqb_spec y k) as [->|]; [tauto|]; apply IH; tauto.
Qed.

End CountFacts.

Module DashboardProps.
Import Dashboard.
Local Open Scope Z_scope.


End DashboardProps.

Module ChartProps.
Import Charts ChartsFacts CountFacts.

Lemma bump_sum c s : list_sum (values (bump c s)) = S (list_sum (values c)).
Proof. destruct s; simpl; lia. Qed.

Lemma fold_status_sum l dly sc :
  list_sum (values (snd (fold_left step l (dly, sc)))) = list_sum (values sc) + List.length l.
Proof.
  revert dly sc; induction l as [|r l IH]; intros dly sc; [simpl; lia|].
  cbn [fold_left List.length].
  assert (Hs : snd (step (dly, sc) r) = bump sc (row_status r)) by reflexivity.
  destruct (step (dly, sc) r) as [d' s'] eqn:E; simpl in Hs.
  rewrite IH, Hs, bump_sum; lia.
Qed.

Lemma counts_of_sum l k :
  list_sum (values (counts_of l k)) = List.length (filter (fun r => String.eqb (row_date r) k) l).
Proof.
  unfold counts_of, count_rows, values; simpl.
  induction l as [|r l IH]; simpl; [reflexivity|].
  destruct (String.eqb (row_date r) k); simpl; [|exact IH].
  destruct (row_status r); simpl; lia.
Qed.

Lemma to_trend_total kv : t_total (to_trend kv) = list_sum (values (snd kv)).
Proof. destruct kv as [k c]; simpl; lia. Qed.

(** The chart's status counts and the totals of its per-date trends both
    add up to the number of rows the query returned. *)
Theorem chart_totals (data : list row) :
  list_sum (values (statusCounts (chart data))) = List.length data
  /\ list_sum (map t_total (trends (chart data))) = List.length data.
Proof.
  pose proof (forEach_invariant data) as [Hkeys Hget]; cbv zeta in Hkeys, Hget.
  pose proof (fold_status_sum data [] zero_counts) as Hs.
  unfold chart.
  destruct (fold_left step data ([], zero_counts)) as [dly sc] eqn:Ef.
  unfold JsObject.t in *; rewrite Ef in Hs; simpl in *.
  split; [exact Hs|].
  rewrite map_map.
  rewrite (list_sum_perm _ (map (fun kv => list_sum (values (snd kv))) dly)).
  2:{ erewrite map_ext by (intros kv; apply to_trend_total).
      apply Permutation_map, JoiFacts.entries_perm. }
  rewrite (obj_as_map dly (counts_of data)).
  - rewrite map_map, Hkeys; simpl.
    rewrite (map_ext _ _ (counts_of_sum data)).
    apply sum_counts_first_seen.
  - rewrite Hkeys; apply NoDup_first_seen.
  - exact Hget.
Qed.

End ChartProps.

Module ExportProps.
Import ExportSheet Charts ChartsFacts CountFacts.

Lemma status_tally_closed data :
  status_tally data
  = map (fun k => (k, tally_count data k)) (first_seen (map AttendanceList.status_name data)).
Proof.
  induction data as [|s data IH] using rev_ind; [reflexivity|].
  unfold status_tally; rewrite fold_left_app; fold (status_tally data); rewrite IH; simpl.
  replace (map AttendanceList.status_name (data ++ [s]))
    with (map AttendanceList.status_name data ++ [AttendanceList.status_name s])
    by (rewrite map_app; reflexivity).
  rewrite first_seen_snoc.
  set (ks := first_seen (map AttendanceList.status_name data)).
  set (y := AttendanceList.status_name s).
  assert (Hc : forall k, tally_count (data ++ [s]) k
                         = tally_count data k + (if String.eqb y k then 1 else 0)).
  { intros k; unfold tally_count.
    exact (length_filter_snoc (fun s' => String.eqb (AttendanceList.status_name s') k) data s). }
  destruct (existsb (String.eqb y) ks) eqn:E.
  - apply existsb_eqb_In in E.
    rewrite get_map_in by exact E.
    rewrite set_map_in by (apply NoDup_first_seen || exact E).
    apply map_ext; intros k; rewrite Hc.
    destruct (String.eqb_spec k y) as [->|Hne]; [rewrite String.eqb_refl; reflexivity|].
    destruct (String.eqb_spec y k); [congruence | f_equal; lia].
  - assert (Hn : ~ In y ks) by (intros Hin; apply existsb_eqb_In in Hin; congruence).
    rewrite get_map_out by exact Hn.
    rewrite set_map_out by exact Hn.
    rewrite map_app; simpl; f_equal.
    + apply map_ext_in; intros k Hk; rewrite Hc.
      destruct (String.eqb_spec y k) as [->|]; [tauto | f_equal; lia].
    + f_equal; f_equal; rewrite Hc, String.eqb_refl.
      unfold tally_count; rewrite (length_filter_none _ data); [reflexivity|].
      intros x Hx; apply String.eqb_neq; intros Hxy; apply Hn.
      apply In_first_seen; rewrite <- Hxy; apply in_map; exact Hx.
Qed.

Lemma status_name_not_index s : JsObject.is_array_index (AttendanceList.status_name s) = false.
Proof. destruct s; reflexivity. Qed.

(** The summary below the exported data: nothing for an empty export;
    otherwise one row per status found in the data, in order of first
    occurrence, with the number of rows of that status, then the total;
    the status rows add up to the total. *)
Theorem export_summary (data : list status) :
  (data = [] -> summary_rows data = [])
  /\ (data <> [] ->
      summary_rows data =
      [[]; [CStr "Summary Statistics"]]
      ++ map (fun k => [CStr (k ++ ":"); CNum (tally_count data k)])
           (first_seen (map AttendanceList.status_name data))
      ++ [[CStr "Total Records:"; CNum (List.length data)]])
  /\ list_sum (map (tally_count data) (first_seen (map AttendanceList.status_name data)))
     = List.length data.
Proof.
  split; [|split].
  - intros ->; reflexivity.
  - intros Hne; unfold summary_rows.
    destruct data as [|s data']; [congruence|]; simpl (0 <? _)%nat; cbv iota.
    rewrite JsObjectFacts.entries_no_index.
    + rewrite status_tally_closed, map_map; reflexivity.
    + rewrite status_tally_closed, map_map; simpl.
      apply Forall_forall; intros k Hk; rewrite map_id in Hk.
      rewrite In_first_seen in Hk.
      change (In k (map AttendanceList.status_name (s :: data'))) in Hk.
      apply in_map_iff in Hk as [s' [<- _]].
      apply status_name_not_index.
  - unfold tally_count; apply sum_counts_first_seen.
Qed.

(** The age column: never negative for a birth date not after now, never
    decreasing as time passes, and equal to [k] exactly [k] years of
    365.25 days after birth. *)
Theorem age_props (now birth : Z) :
  ((birth <= now)%Z -> (0 <= age now birth)%Z)
  /\ (forall now', (now <= now')%Z -> (age now birth <= age now' birth)%Z)
  /\ (forall k, age (birth + k * ms_per_year) birth = k).
Proof.
  unfold age, ms_per_year; split; [|split].
  - intros H; apply Z.div_pos; lia.
  - intros now' H; apply Z.div_le_mono; lia.
  - intros k; replace (birth + k * 31557600000 - birth)%Z with (k * 31557600000)%Z by lia.
    apply Z.div_mul; lia.
Qed.

End ExportProps.

Module UpsertFacts.
Import Store StoreFacts Integrity.

Lemma upsert_one_classes d v : classes (fst (upsert_one d v)) = classes d.
Proof. unfold upsert_one; destruct (find _ _); reflexivity. Qed.

Lemma upsert_rows_cons d v vs :
  fst (upsert_rows d (v :: vs)) = fst (upsert_rows (fst (upsert_one d v)) vs).
Proof.
  simpl; destruct (upsert_one d v) as [d1 r]; simpl.
  destruct (upsert_rows d1 vs); reflexivity.
Qed.

Lemma upsert_rows_classes d vs : classes (fst (upsert_rows d vs)) = classes d.
Proof.
  revert d; induction vs as [|v vs IH]; intros d; [reflexivity|].
  rewrite upsert_rows_cons, IH; apply upsert_one_classes.
Qed.

Lemma upsert_rows_students d vs : students (fst (upsert_rows d vs)) = students d.
Proof.
  revert d; induction vs as [|v vs IH]; intros d; [reflexivity|].
  rewrite upsert_rows_cons, IH; apply upsert_one_students.
Qed.

Lemma upsert_one_frame d v sid date :
  (sid, date) <> input_key v ->
  filter (key_is sid date) (attendance_tbl (fst (upsert_one d v)))
  = filter (key_is sid date) (attendance_tbl d).
Proof.
  intros Hne; unfold upsert_one.
  set (k := key_is (in_student_id v) (in_date v)).
  destruct (find k (attendance_tbl d)) as [old|]; simpl.
  - induction (attendance_tbl d) as [|a l IH]; simpl; [reflexivity|].
    destruct (k a) eqn:Ek.
    + assert (Hkk : key_is sid date a = false).
      { destruct (key_is sid date a) eqn:E; [|reflexivity].
        apply key_is_akey in E; apply key_is_akey in Ek.
        unfold input_key in Hne; congruence. }
      assert (Hkk' : key_is sid date (mkAtt (a_id a) (a_student_id a) (a_date a) (in_status v))
                     = key_is sid date a) by reflexivity.
      rewrite Hkk', Hkk; exact IH.
    + destruct (key_is sid date a); [f_equal|]; exact IH.
  - rewrite filter_app; simpl.
    assert (Hr : key_is sid date (mkAtt (next_id d) (in_student_id v) (in_date v) (in_status v))
                 = false).
    { destruct (key_is sid date _) eqn:E; [|reflexivity].
      apply key_is_akey in E; unfold akey in E; simpl in E.
      unfold input_key in Hne; congruence. }
    rewrite Hr, app_nil_r; reflexivity.
Qed.

Lemma upsert_rows_frame d vs sid date :
  ~ In (sid, date) (map input_key vs) ->
  filter (key_is sid date) (attendance_tbl (fst (upsert_rows d vs)))
  = filter (key_is sid date) (attendance_tbl d).
Proof.
  revert d; induction vs as [|v vs IH]; intros d Hn; [reflexivity|].
  rewrite upsert_rows_cons, IH by (simpl in Hn; tauto).
  apply upsert_one_frame; simpl in Hn; intros E; apply Hn; left; congruence.
Qed.

Lemma upsert_rows_unique d vs :
  attendance_unique d -> attendance_unique (fst (upsert_rows d vs)).
Proof.
  revert d; induction vs as [|v vs IH]; intros d Hu; [exact Hu|].
  rewrite upsert_rows_cons; apply IH; apply (upsert_one_key d v Hu).
Qed.

Lemma upsert_rows_lookup d vs v :
  attendance_unique d -> NoDup (map input_key vs) -> In v vs ->
  exists i, filter (key_is (in_student_id v) (in_date v)) (attendance_tbl (fst (upsert_rows d vs)))
            = [mkAtt i (in_student_id v) (in_date v) (in_status v)].
Proof.
  revert d; induction vs as [|v0 vs IH]; intros d Hu Hnd Hin; [destruct Hin|].
  simpl in Hnd; apply NoDup_cons_iff in Hnd as [Hv0 Hnd].
  rewrite upsert_rows_cons.
  pose proof (upsert_one_key d v0 Hu) as [Hk Hu1]; cbv zeta in Hk, Hu1.
  destruct Hin as [<-|Hin].
  - rewrite upsert_rows_frame by exact Hv0.
    eexists; exact Hk.
  - apply IH; assumption.
Qed.

Lemma upsert_one_sources d v a :
  In a (attendance_tbl (fst (upsert_one d v))) ->
  In a (attendance_tbl d) \/ a_student_id a = in_student_id v
  \/ exists a0, In a0 (attendance_tbl d) /\ a_student_id a = a_student_id a0.
Proof.
  unfold upsert_one; destruct (find _ _) as [old|]; simpl.
  - intros Hin; apply in_map_iff in Hin as [b [Ha Hin]].
    right; right; exists b; split; [exact Hin|].
    rewrite <- Ha; destruct (key_is _ _ b); reflexivity.
  - intros Hin; apply in_app_iff in Hin as [Hin|[<-|[]]]; [left; exact Hin | right; left; reflexivity].
Qed.

Lemma upsert_rows_sources d vs a :
  In a (attendance_tbl (fst (upsert_rows d vs))) ->
  In (a_student_id a) (map a_student_id (attendance_tbl d))
  \/ In (a_student_id a) (map in_student_id vs).
Proof.
  revert d; induction vs as [|v vs IH]; intros d Hin.
  - left; apply in_map; exact Hin.
  - rewrite upsert_rows_cons in Hin.
    destruct (IH _ Hin) as [H|H]; [|right; right; exact H].
    apply in_map_iff in H as [a1 [Ha1 Hin1]].
    destruct (upsert_one_sources d v a1 Hin1) as [H1|[H1|[a0 [H0 H1]]]].
    + left; rewrite <- Ha1; apply in_map; exact H1.
    + right; left; congruence.
    + left; rewrite <- Ha1, H1; apply in_map; exact H0.
Qed.

(** Upserting rows of known students keeps the store's integrity. *)
Lemma upsert_rows_integrity d vs :
  attendance_unique d -> refs_ok d ->
  (forall v, In v vs -> In (in_student_id v) (map s_id (students d))) ->
  attendance_unique (fst (upsert_rows d vs)) /\ refs_ok (fst (upsert_rows d vs)).
Proof.
  intros Hu [Hc Ha] Hv; split; [apply upsert_rows_unique; exact Hu|].
  split; rewrite upsert_rows_students; [rewrite upsert_rows_classes; exact Hc|].
  intros a Hin; destruct (upsert_rows_sources d vs a Hin) as [H|H].
  - apply in_map_iff in H as [a0 [Ha0 Hin0]]; rewrite <- Ha0; apply Ha; exact Hin0.
  - apply in_map_iff in H as [v [Hvs Hin0]]; rewrite <- Hvs; apply Hv; exact Hin0.
Qed.

Lemma upsert_eq d vs :
  upsert d vs = if NoDup_dec key_pair_dec (map input_key vs) then Some (upsert_rows d vs) else None.
Proof. reflexivity. Qed.


Lemma length_check_ids d ids :
  students_pk d -> List.length (students_in d ids) = List.length ids ->
  NoDup ids /\ incl ids (map s_id (students d)).
Proof.
  intros Hpk Hl; split.
  - destruct (NoDup_dec string_dec ids) as [H|H]; [exact H|].
    pose proof (students_in_duplicate d ids Hpk H); lia.
  - intros x Hx; destruct (in_dec string_dec x (map s_id (students d))) as [H|H]; [exact H|].
    pose proof (students_in_missing d ids x Hpk Hx H); lia.
Qed.

Lemma prepare_keys date records :
  map input_key (prepare (mkBulk date records)) = map (fun sid => (sid, date)) (map fst records).
Proof.
  unfold prepare; simpl; rewrite !map_map; apply map_ext; intros [sid st]; reflexivity.
Qed.



End UpsertFacts.

Module AttendanceProps.
Import Store StoreFacts Integrity UpsertFacts.

(** After a bulk write answered 201, every submitted record is stored:
    there is exactly one row for its student on the submitted date, and
    it has the submitted status. *)
Theorem post_bulk_records_stored (d : db) (value : bulk_value) :
  attendance_unique d ->
  r_status (snd (post_bulk d value)) = 201 ->
  forall sid st, In (sid, st) (bv_records value) ->
  exists i, filter (key_is sid (bv_date value)) (attendance_tbl (fst (post_bulk d value)))
            = [mkAtt i sid (bv_date value) st].
Proof.
  intros Hu H201 sid st Hin; unfold post_bulk in *.
  destruct (negb _); [discriminate|].
  rewrite upsert_eq in *.
  destruct (NoDup_dec key_pair_dec (map input_key (prepare value))) as [Hnd|]; [|discriminate].
  simpl.
  assert (Hv : In (mkInput sid (bv_date value) st) (prepare value)).
  { unfold prepare; apply in_map_iff; exists (sid, st); split; [reflexivity | exact Hin]. }
  pose proof (upsert_rows_lookup d _ _ Hu Hnd Hv) as L.
  destruct (upsert_rows d (prepare value)); exact L.
Qed.

(** A bulk write never changes the rows of a (student, date) pair it was
    not given: every other student, and every other date, keeps its rows. *)
Theorem post_bulk_frame (d : db) (value : bulk_value) (sid date : string) :
  ~ (date = bv_date value /\ In sid (map fst (bv_records value))) ->
  filter (key_is sid date) (attendance_tbl (fst (post_bulk d value)))
  = filter (key_is sid date) (attendance_tbl d).
Proof.
  intros Hn; unfold post_bulk.
  destruct (negb _); [reflexivity|].
  rewrite upsert_eq.
  destruct (NoDup_dec _ _); [|reflexivity].
  pose proof (upsert_rows_frame d (prepare value) sid date) as L.
  destruct (upsert_rows d (prepare value)); apply L; intros Hin.
  destruct value as [vdate recs].
  rewrite prepare_keys in Hin; apply in_map_iff in Hin as [x [Ex Hx]].
  injection Ex as -> ->; apply Hn; split; [reflexivity | exact Hx].
Qed.

(** Recording attendance, one row or in bulk, keeps a single row per
    student and date and every attendance row pointing at an existing
    student (given distinct student ids). *)
Theorem attendance_writes_keep_integrity (d : db) :
  students_pk d -> attendance_unique d -> refs_ok d ->
  (forall v, attendance_unique (fst (post_single d v)) /\ refs_ok (fst (post_single d v)))
  /\ (forall value, attendance_unique (fst (post_bulk d value))
                    /\ refs_ok (fst (post_bulk d value))).
Proof.
  intros Hpk Hu Hr; split.
  - intros v; unfold post_single.
    destruct (single (students_eq d (in_student_id v))) as [s|] eqn:Es; [|split; assumption].
    assert (Hs : In (in_student_id v) (map s_id (students d))).
    { unfold single, students_eq in Es.
      destruct (filter _ (students d)) as [|s' [|]] eqn:Ef; try discriminate.
      injection Es as <-.
      assert (Hin : In s' (filter (fun s => String.eqb (s_id s) (in_student_id v)) (students d)))
        by (rewrite Ef; left; reflexivity).
      apply filter_In in Hin as [Hin E]; apply String.eqb_eq in E.
      rewrite <- E; apply in_map; exact Hin. }
    rewrite upsert_eq.
    destruct (NoDup_dec _ _); [|split; assumption].
    destruct (upsert_rows d [v]) as [d' [|r [|]]] eqn:Eu; try (split; assumption).
    replace d' with (fst (upsert_rows d [v])) by (rewrite Eu; reflexivity).
    apply upsert_rows_integrity; [exact Hu | exact Hr |].
    intros v' [<-|[]]; exact Hs.
  - intros value; unfold post_bulk.
    destruct (negb _) eqn:El; [split; assumption|].
    apply negb_false_iff, Nat.eqb_eq in El.
    destruct (length_check_ids d _ Hpk El) as [_ Hinc].
    rewrite upsert_eq; destruct (NoDup_dec _ _); [|split; assumption].
    assert (L := upsert_rows_integrity d (prepare value) Hu Hr
                   (fun v Hv => Hinc _ (in_map in_student_id _ v Hv))).
    destruct (upsert_rows d (prepare value)); exact L.
Qed.


Local Open Scope string_scope.

Lemma sample_db_pk : students_pk Samples.sample_db.
Proof. unfold students_pk; simpl; repeat constructor; simpl; intuition discriminate. Qed.

Lemma sample_db_unique : attendance_unique Samples.sample_db.
Proof. constructor. Qed.

Lemma sample_db_refs : refs_ok Samples.sample_db.
Proof.
  split; simpl; [intros s [<-|[<-|[]]]; simpl; auto | intros a []].
Qed.

Lemma post_bulk_records_stored_witness :
  attendance_unique Samples.sample_db
  /\ r_status (snd (post_bulk Samples.sample_db
                      (mkBulk "2024-01-01" [("s1", Present); ("s2", Absent)]))) = 201
  /\ forall sid st, In (sid, st) [("s1"%string, Present); ("s2"%string, Absent)] ->
     exists i, filter (key_is sid "2024-01-01")
                 (attendance_tbl (fst (post_bulk Samples.sample_db
                    (mkBulk "2024-01-01" [("s1", Present); ("s2", Absent)]))))
               = [mkAtt i sid "2024-01-01" st].
Proof.
  assert (H201 : r_status (snd (post_bulk Samples.sample_db
                   (mkBulk "2024-01-01" [("s1", Present); ("s2", Absent)]))) = 201).
  { unfold post_bulk; rewrite upsert_eq.
    destruct (NoDup_dec _ _) as [_|Hn]; [vm_compute; reflexivity|].
    exfalso; apply Hn; simpl; repeat constructor; simpl; intuition discriminate. }
  split; [exact sample_db_unique|]; split; [exact H201|].
  exact (post_bulk_records_stored Samples.sample_db
           (mkBulk "2024-01-01" [("s1", Present); ("s2", Absent)]) sample_db_unique H201).
Defined.

Lemma post_bulk_frame_witness :
  ~ ("2024-01-01"%string = "2024-01-01"%string /\ In "s2"%string ["s1"%string])
  /\ filter (key_is "s2" "2024-01-01")
       (attendance_tbl (fst (post_bulk Samples.sample_db (mkBulk "2024-01-01" [("s1", Present)]))))
     = filter (key_is "s2" "2024-01-01") (attendance_tbl Samples.sample_db).
Proof.
  assert (Hn : ~ ("2024-01-01"%string = "2024-01-01"%string /\ In "s2"%string ["s1"%string]))
    by (simpl; intuition discriminate).
  split; [exact Hn|].
  exact (post_bulk_frame Samples.sample_db (mkBulk "2024-01-01" [("s1", Present)])
           "s2" "2024-01-01" Hn).
Defined.

Lemma attendance_writes_keep_integrity_witness :
  students_pk Samples.sample_db /\ attendance_unique Samples.sample_db
  /\ refs_ok Samples.sample_db
  /\ (forall v, attendance_unique (fst (post_single Samples.sample_db v))
                /\ refs_ok (fst (post_single Samples.sample_db v)))
  /\ (forall value, attendance_unique (fst (post_bulk Samples.sample_db value))
                    /\ refs_ok (fst (post_bulk Samples.sample_db value))).
Proof.
  split; [exact sample_db_pk|]; split; [exact sample_db_unique|]; split; [exact sample_db_refs|].
  exact (attendance_writes_keep_integrity Samples.sample_db
           sample_db_pk sample_db_unique sample_db_refs).
Defined.


End AttendanceProps.

Module RouteFacts.
Import Store Classes Integrity.

Lemma filter_at_most_one {A B} (f : A -> B) (p : A -> bool) (k : B) (l : list A) :
  NoDup (map f l) -> (forall x, In x l -> p x = true -> f x = k) ->
  List.length (filter p l) <= 1.
Proof.
  induction l as [|x l IH]; intros Hnd Hk; simpl; [lia|].
  simpl in Hnd; apply NoDup_cons_iff in Hnd as [Hx Hnd].
  assert (IH' : List.length (filter p l) <= 1) by (apply IH; [exact Hnd | intros y Hy; apply Hk; right; exact Hy]).
  destruct (p x) eqn:Ep; [|exact IH'].
  destruct (filter p l) as [|y ys] eqn:Ef; simpl; [lia|].
  exfalso; assert (Hy : In y (filter p l)) by (rewrite Ef; left; reflexivity).
  apply filter_In in Hy as [Hy Ey]; apply Hx.
  rewrite (Hk x (or_introl eq_refl) Ep), <- (Hk y (or_intror Hy) Ey); apply in_map; exact Hy.
Qed.

Lemma no_match_of_none {A} (p : A -> bool) (l : list A) :
  List.length (filter p l) <= 1 -> fst (pg_single (filter p l)) = None ->
  forall x, In x l -> p x = false.
Proof.
  intros Hle Hn x Hx; destruct (p x) eqn:Ep; [|reflexivity].
  assert (Hin : In x (filter p l)) by (apply filter_In; split; assumption).
  destruct (filter p l) as [|y [|z r]]; simpl in *; [destruct Hin | discriminate | lia].
Qed.

Lemma pg_single_some {A} (l : list A) x : fst (pg_single l) = Some x -> l = [x].
Proof. destruct l as [|y [|]]; simpl; intros E; try discriminate; congruence. Qed.

Lemma pg_single_ok {A} (l : list A) x : pg_single l = (Some x, false) -> l = [x].
Proof. destruct l as [|y [|]]; simpl; intros E; try discriminate; congruence. Qed.

Lemma pg_single_nil {A} : @pg_single A [] = (None, true).
Proof. reflexivity. Qed.

Lemma NoDup_snoc {A} (l : list A) x : NoDup l -> ~ In x l -> NoDup (l ++ [x]).
Proof.
  intros Hnd Hx; apply (Permutation_NoDup (Permutation_cons_append l x)).
  constructor; assumption.
Qed.

Lemma filter_none {A} (p : A -> bool) (l : list A) :
  (forall x, In x l -> p x = false) -> filter p l = [].
Proof.
  induction l as [|x l IH]; intros H; simpl; [reflexivity|].
  rewrite (H x (or_introl eq_refl)); apply IH; intros y Hy; apply H; right; exact Hy.
Qed.

Lemma filter_id_missing {A} (f : A -> string) (l : list A) id :
  ~ In id (map f l) -> filter (fun x => String.eqb (f x) id) l = [].
Proof.
  intros Hn; apply filter_none; intros x Hx.
  destruct (String.eqb_spec (f x) id) as [E|]; [|reflexivity].
  exfalso; apply Hn; rewrite <- E; apply in_map; exact Hx.
Qed.

Lemma existsb_false_not_in {A} (f : A -> string) (l : list A) k :
  existsb (fun x => String.eqb (f x) k) l = false -> ~ In k (map f l).
Proof.
  intros E Hin; apply in_map_iff in Hin as [x [Hx Hin]].
  assert (existsb (fun x => String.eqb (f x) k) l = true)
    by (apply existsb_exists; exists x; split; [exact Hin | apply String.eqb_eq; exact Hx]).
  congruence.
Qed.

Lemma existsb_as_filter {A} (p : A -> bool) (l : list A) :
  existsb p l = match filter p l with [] => false | _ => true end.
Proof.
  induction l as [|x l IH]; simpl; [reflexivity|].
  destruct (p x); [reflexivity | exact IH].
Qed.

Lemma Sorted_weaken {A} (R R' : A -> A -> Prop) (l : list A) :
  (forall a b, R a b -> R' a b) -> Sorted R l -> Sorted R' l.
Proof.
  intros HR Hs; induction Hs as [|a l Hs IH Hd]; constructor; [exact IH|].
  destruct Hd; constructor; apply HR; assumption.
Qed.

Lemma class_exists_in d cid c :
  StudentRoutes.class_exists d cid = Some c -> In cid (map c_id (classes d)).
Proof.
  unfold StudentRoutes.class_exists; intros E; apply pg_single_some in E.
  assert (Hc : In c (filter (fun c => String.eqb (c_id c) cid) (classes d)))
    by (rewrite E; left; reflexivity).
  apply filter_In in Hc as [Hc Ec]; apply String.eqb_eq in Ec.
  rewrite <- Ec; apply in_map; exact Hc.
Qed.

(** Updating the row of one id with a name and grade no other row has
    keeps the (name, grade) pairs distinct. *)
Lemma update_pairs_nodup (l : list class_row) id nm gr :
  NoDup (map c_id l) ->
  NoDup (map (fun c => (c_class_name c, c_grade c)) l) ->
  (forall c, In c l -> c_id c <> id -> (c_class_name c, c_grade c) <> (nm, gr)) ->
  NoDup (map (fun c => (c_class_name c, c_grade c))
           (map (fun c => if String.eqb (c_id c) id then mkClass (c_id c) nm gr else c) l)).
Proof.
  induction l as [|c l IH]; intros Hid Hp Hother; simpl; [constructor|].
  simpl in Hid, Hp; apply NoDup_cons_iff in Hid as [Hcid Hid].
  apply NoDup_cons_iff in Hp as [Hcp Hp].
  constructor.
  - rewrite map_map; intros Hin; apply in_map_iff in Hin as [x [Ex Hx]].
    destruct (String.eqb_spec (c_id c) id) as [Ec|Ec];
      destruct (String.eqb_spec (c_id x) id) as [Exi|Exi]; simpl in Ex.
    + apply Hcid; rewrite Ec, <- Exi; apply in_map; exact Hx.
    + apply (Hother x (or_intror Hx) Exi); exact Ex.
    + apply (Hother c (or_introl eq_refl) Ec); symmetry; exact Ex.
    + apply Hcp; rewrite <- Ex; apply (in_map (fun c => (c_class_name c, c_grade c))); exact Hx.
  - apply IH; [exact Hid | exact Hp |].
    intros x Hx; apply Hother; right; exact Hx.
Qed.

Lemma map_update_ids {R} (f : R -> string) (upd : R -> R) (l : list R) id :
  (forall x, f (upd x) = f x) ->
  map f (map (fun x => if String.eqb (f x) id then upd x else x) l) = map f l.
Proof.
  intros Hu; rewrite map_map; apply map_ext; intros x.
  destruct (String.eqb (f x) id); [apply Hu | reflexivity].
Qed.

Lemma delete_class_rows_ok d id :
  classes_pk d -> class_names_unique d -> refs_ok d ->
  classes_pk (delete_class_rows d id) /\ class_names_unique (delete_class_rows d id)
  /\ refs_ok (delete_class_rows d id).
Proof.
  intros Hpk Hn [Hc Ha]; unfold delete_class_rows, classes_pk, class_names_unique, refs_ok; simpl.
  split; [apply StoreFacts.NoDup_map_filter; exact Hpk|].
  split; [apply StoreFacts.NoDup_map_filter; exact Hn|].
  split.
  - intros s Hs; apply filter_In in Hs as [Hs Es]; apply negb_true_iff in Es.
    destruct (in_map_iff c_id (classes d) (s_class_id s)) as [H _].
    destruct (H (Hc s Hs)) as [c [Ec Hc']].
    apply in_map_iff; exists c; split; [exact Ec|].
    apply filter_In; split; [exact Hc'|]; rewrite Ec, Es; reflexivity.
  - intros a Ha'; apply filter_In in Ha' as [Ha' Ea]; apply negb_true_iff in Ea.
    destruct (in_map_iff s_id (students d) (a_student_id a)) as [H _].
    destruct (H (Ha a Ha')) as [s [Es Hs]].
    apply in_map_iff; exists s; split; [exact Es|].
    apply filter_In; split; [exact Hs|].
    destruct (String.eqb (s_class_id s) id) eqn:Ec; [|reflexivity].
    exfalso.
    assert (Ht : exists s', In s' (filter (fun s => String.eqb (s_class_id s) id) (students d))
                            /\ String.eqb (s_id s') (a_student_id a) = true).
    { exists s; split; [apply filter_In; split; assumption | apply String.eqb_eq; exact Es]. }
    rewrite <- existsb_exists in Ht; congruence.
Qed.

End RouteFacts.

Module ClassRouteProps.
Import Store Classes Integrity ClassRoutes RouteFacts.

(** GET /api/classes returns every class once, ordered by grade and,
    within a grade, by class name. *)
Theorem get_classes_ordered (d : db) :
  Permutation (get_classes d) (classes d)
  /\ Sorted (fun a b => (c_grade a < c_grade b)%Z
                        \/ (c_grade a = c_grade b
                            /\ String.leb (c_class_name a) (c_class_name b) = true))
            (get_classes d).
Proof.
  split; [apply SortFacts.sort_perm|].
  apply (Sorted_weaken (fun a b => class_le a b = true)).
  - intros a b H; unfold class_le in H.
    apply orb_true_iff in H as [H|H]; [left; apply Z.ltb_lt; exact H|].
    apply andb_true_iff in H as [H1 H2]; right; split; [apply Z.eqb_eq; exact H1 | exact H2].
  - apply SortFacts.sort_sorted; exact SortFacts.class_le_flip.
Qed.

(** Creating, renaming and deleting classes, one request at a time, keep
    class ids distinct, keep (class name, grade) pairs distinct and keep
    every student in an existing class and every attendance row on an
    existing student. *)
Theorem class_writes_keep_integrity (d : db) :
  classes_pk d -> class_names_unique d -> refs_ok d ->
  forall (value : class_value) (id new_id : string),
  (classes_pk (fst (post_class d value new_id))
   /\ class_names_unique (fst (post_class d value new_id))
   /\ refs_ok (fst (post_class d value new_id)))
  /\ (classes_pk (fst (put_class d id value))
      /\ class_names_unique (fst (put_class d id value))
      /\ refs_ok (fst (put_class d id value)))
  /\ (classes_pk (fst (delete_class d id))
      /\ class_names_unique (fst (delete_class d id))
      /\ refs_ok (fst (delete_class d id))).
Proof.
  intros Hpk Hn Hr value id new_id.
  assert (Hle : forall p k, (forall c, p c = true -> (c_class_name c, c_grade c) = k) ->
                List.length (filter p (classes d)) <= 1).
  { intros p k Hp; apply (filter_at_most_one (fun c => (c_class_name c, c_grade c)) p k);
      [exact Hn | intros x _; apply Hp]. }
  assert (Hsame : forall c, same_name_grade value c = true ->
                  (c_class_name c, c_grade c) = (cv_class_name value, cv_grade value)).
  { intros c Hc; unfold same_name_grade in Hc; apply andb_true_iff in Hc as [H1 H2].
    apply String.eqb_eq in H1; apply Z.eqb_eq in H2; rewrite H1, H2; reflexivity. }
  split; [|split].
  - unfold post_class.
    destruct (fst (pg_single (filter (same_name_grade value) (classes d)))) eqn:E;
      [split; [|split]; assumption|].
    destruct (_ || _) eqn:C; [split; [|split]; assumption|].
    apply orb_false_iff in C as [C _].
    pose proof (no_match_of_none _ _ (Hle _ _ Hsame) E) as Hnone.
    destruct Hr as [Hc Ha].
    unfold classes_pk, class_names_unique, refs_ok; simpl; rewrite !map_app.
    split; [apply NoDup_snoc; [exact Hpk | apply existsb_false_not_in; exact C]|].
    split.
    + apply NoDup_snoc; [exact Hn|].
      intros Hin; apply in_map_iff in Hin as [c [Ec Hin]].
      specialize (Hnone c Hin); unfold same_name_grade in Hnone.
      injection Ec as E1 E2; rewrite E1, E2, String.eqb_refl, Z.eqb_refl in Hnone; discriminate.
    + split; [|exact Ha].
      intros s Hs; apply in_or_app; left; apply Hc; exact Hs.
  - unfold put_class.
    set (p := fun c => same_name_grade value c && negb (String.eqb (c_id c) id)).
    destruct (fst (pg_single (filter p (classes d)))) eqn:E; [split; [|split]; assumption|].
    destruct (pg_single (filter (fun c => String.eqb (c_id c) id) (classes d))) as [data err].
    destruct (_ || _); [split; [|split]; assumption|].
    destruct data as [row|]; [|split; [|split]; assumption].
    assert (Hp : forall c, p c = true -> (c_class_name c, c_grade c) = (cv_class_name value, cv_grade value)).
    { intros c Hc; apply Hsame; unfold p in Hc; apply andb_true_iff in Hc; tauto. }
    pose proof (no_match_of_none _ _ (Hle _ _ Hp) E) as Hnone.
    destruct Hr as [Hc Ha].
    assert (Hids : map c_id (map (fun c => if String.eqb (c_id c) id
                                            then mkClass (c_id c) (cv_class_name value) (cv_grade value)
                                            else c) (classes d)) = map c_id (classes d))
      by (apply (map_update_ids c_id); reflexivity).
    unfold classes_pk, class_names_unique, refs_ok; simpl; rewrite Hids.
    split; [exact Hpk|]; split; [|split; assumption].
    apply update_pairs_nodup; [exact Hpk | exact Hn |].
    intros c Hin Hid Ec; specialize (Hnone c Hin); unfold p in Hnone.
    rewrite (proj2 (String.eqb_neq _ _) Hid) in Hnone.
    unfold same_name_grade in Hnone; injection Ec as E1 E2.
    rewrite E1, E2, String.eqb_refl, Z.eqb_refl in Hnone; discriminate.
  - unfold delete_class.
    destruct (0 <? _)%nat; [split; [|split]; assumption|].
    destruct (pg_single _) as [data err]; destruct err; [split; [|split]; assumption|].
    destruct data as [row|]; [apply delete_class_rows_ok; assumption | split; [|split]; assumption].
Qed.

(** The duplicate check of POST /api/classes reads only [data] of a
    [.single()] lookup, which is [null] as soon as two classes match:
    once two classes share a name and grade, a third one with that name
    and grade is created (answer 201). *)
Theorem post_class_duplicate_bypass (d : db) (value : class_value) (new_id : string) :
  2 <= List.length (filter (same_name_grade value) (classes d)) ->
  existsb (fun c => String.eqb (c_id c) new_id) (classes d) = false ->
  grade_ok (cv_grade value) = true ->
  snd (post_class d value new_id) = mkResp 201 true "Class created successfully"
  /\ List.length (filter (same_name_grade value) (classes (fst (post_class d value new_id))))
     = S (List.length (filter (same_name_grade value) (classes d))).
Proof.
  intros H2 Hfresh Hg; unfold post_class.
  destruct (filter (same_name_grade value) (classes d)) as [|x [|y r]] eqn:Ef;
    simpl in H2; [lia | lia|].
  simpl fst; cbv iota; rewrite Hfresh, Hg; simpl.
  split; [reflexivity|].
  rewrite filter_app, Ef, length_app; simpl.
  unfold same_name_grade; simpl; rewrite String.eqb_refl, Z.eqb_refl; simpl; lia.
Qed.

(** The class handlers on an id no class has: GET answers 500
    "Failed to fetch class" (never 404), and PUT and DELETE leave the
    store unchanged. *)
Theorem class_routes_missing_id (d : db) (id : string) (value : class_value) :
  ~ In id (map c_id (classes d)) ->
  get_class d id = inr (mkResp 500 false "Failed to fetch class")
  /\ fst (put_class d id value) = d
  /\ fst (delete_class d id) = d.
Proof.
  intros Hn; pose proof (filter_id_missing c_id (classes d) id Hn) as E.
  unfold get_class, put_class, delete_class; rewrite E, pg_single_nil; simpl.
  split; [reflexivity|]; split.
  - destruct (fst (pg_single _)); reflexivity.
  - destruct (0 <? _)%nat; reflexivity.
Qed.

End ClassRouteProps.

Module StudentRouteProps.
Import Store Classes Integrity ClassView StudentRoutes RouteFacts.

(** [db.getStudents] and GET /api/students: every student (or, for a
    non-empty [classId], exactly the students of that class), each once,
    ordered by name; an empty [classId] is no filter. *)
Theorem getStudents_result (d : db) :
  (forall classId, Sorted (fun a b => String.leb (s_name a) (s_name b) = true)
                          (getStudents d classId))
  /\ Permutation (getStudents d None) (students d)
  /\ (forall cid s, In s (getStudents d (Some cid))
                    <-> In s (students d) /\ (cid = ""%string \/ s_class_id s = cid)).
Proof.
  split; [intros classId; apply ClassViewFacts.order_by_name_sorted|].
  split; [apply ClassViewFacts.order_by_name_perm|].
  intros cid s; unfold getStudents.
  assert (Hiff : forall l, In s (order_by_name l) <-> In s l).
  { intros l; split; apply Permutation_in; [|symmetry]; apply ClassViewFacts.order_by_name_perm. }
  rewrite Hiff; unfold AttendanceList.truthy.
  destruct (String.eqb_spec cid ""%string) as [->|Hne]; simpl.
  - tauto.
  - rewrite filter_In, String.eqb_eq; tauto.
Qed.

(** Creating, updating and deleting students keep student ids distinct,
    one attendance row per student and date, every student in an existing
    class and every attendance row on an existing student; deleting a
    student deletes its attendance rows. *)
Theorem student_writes_keep_integrity (d : db) :
  students_pk d -> attendance_unique d -> refs_ok d ->
  forall (value : student_value) (id new_id : string),
  (students_pk (fst (post_student d value new_id))
   /\ attendance_unique (fst (post_student d value new_id))
   /\ refs_ok (fst (post_student d value new_id)))
  /\ (students_pk (fst (put_student d id value))
      /\ attendance_unique (fst (put_student d id value))
      /\ refs_ok (fst (put_student d id value)))
  /\ (students_pk (fst (delete_student d id))
      /\ attendance_unique (fst (delete_student d id))
      /\ refs_ok (fst (delete_student d id))).
Proof.
  intros Hpk Hu [Hc Ha] value id new_id.
  split; [|split].
  - unfold post_student.
    destruct (class_exists d (sv_class_id value)) as [c|] eqn:Ec; [|repeat split; assumption].
    destruct (existsb _ _) eqn:Ex; [repeat split; assumption|].
    pose proof (class_exists_in _ _ _ Ec) as Hcls.
    unfold students_pk, attendance_unique, refs_ok; simpl; rewrite map_app.
    split; [apply NoDup_snoc; [exact Hpk | apply existsb_false_not_in; exact Ex]|].
    split; [exact Hu|]; split.
    + intros s Hs; apply in_app_iff in Hs as [Hs|[<-|[]]]; [apply Hc; exact Hs | exact Hcls].
    + intros a Hin; apply in_or_app; left; apply Ha; exact Hin.
  - unfold put_student.
    destruct (class_exists d (sv_class_id value)) as [c|] eqn:Ec; [|repeat split; assumption].
    destruct (pg_single _) as [data err]; destruct err; [repeat split; assumption|].
    destruct data as [row|]; [|repeat split; assumption].
    pose proof (class_exists_in _ _ _ Ec) as Hcls.
    assert (Hids : map s_id (map (fun s => if String.eqb (s_id s) id
                                            then mkStudent (s_id s) (sv_name value) (sv_class_id value)
                                            else s) (students d)) = map s_id (students d))
      by (apply (map_update_ids s_id); reflexivity).
    unfold students_pk, attendance_unique, refs_ok; simpl; rewrite Hids.
    split; [exact Hpk|]; split; [exact Hu|]; split; [|exact Ha].
    intros s Hs; apply in_map_iff in Hs as [s0 [<- Hs0]].
    destruct (String.eqb (s_id s0) id); [exact Hcls | apply Hc; exact Hs0].
  - unfold delete_student.
    destruct (pg_single _) as [data err]; destruct err; [repeat split; assumption|].
    destruct data as [row|]; [|repeat split; assumption].
    unfold students_pk, attendance_unique, refs_ok; simpl.
    split; [apply StoreFacts.NoDup_map_filter; exact Hpk|].
    split; [apply StoreFacts.NoDup_map_filter; exact Hu|]; split.
    + intros s Hs; apply filter_In in Hs as [Hs _]; apply Hc; exact Hs.
    + intros a Hin; apply filter_In in Hin as [Hin Ea]; apply negb_true_iff in Ea.
      destruct (in_map_iff s_id (students d) (a_student_id a)) as [H _].
      destruct (H (Ha a Hin)) as [s [Es Hs]].
      apply in_map_iff; exists s; split; [exact Es|].
      apply filter_In; split; [exact Hs|]; rewrite Es, Ea; reflexivity.
Qed.

(** The student handlers on an id no student has: GET answers 500
    "Failed to fetch student" (never 404), PUT leaves the store
    unchanged, and DELETE answers 500 "Failed to delete student" with the
    store unchanged. *)
Theorem student_routes_missing_id (d : db) (id : string) (value : student_value) :
  ~ In id (map s_id (students d)) ->
  get_student d id = inr (mkResp 500 false "Failed to fetch student")
  /\ fst (put_student d id value) = d
  /\ delete_student d id = (d, mkResp 500 false "Failed to delete student").
Proof.
  intros Hn; pose proof (filter_id_missing s_id (students d) id Hn) as E.
  unfold get_student, put_student, delete_student; rewrite E, pg_single_nil; simpl.
  split; [reflexivity|]; split; [|reflexivity].
  destruct (class_exists _ _); reflexivity.
Qed.

End StudentRouteProps.

Module RouteNever404.
Import Store Classes ClassRoutes StudentRoutes.

(** The "not found" branches of the class and student handlers are dead:
    [.single()] reports an error whenever no row matches, so GET, PUT and
    DELETE of /api/classes/:id and /api/students/:id never answer 404. *)
Theorem routes_never_404 (d : db) (id : string) (cv : class_value) (sv : student_value) :
  (forall r, get_class d id = inr r -> r_status r <> 404)
  /\ r_status (snd (put_class d id cv)) <> 404
  /\ r_status (snd (delete_class d id)) <> 404
  /\ (forall r, get_student d id = inr r -> r_status r <> 404)
  /\ r_status (snd (put_student d id sv)) <> 404
  /\ r_status (snd (delete_student d id)) <> 404.
Proof.
  unfold get_class, put_class, delete_class, get_student, put_student, delete_student.
  repeat split;
    repeat match goal with
           | |- forall r, _ -> _ => intros r Er
           | |- context [pg_single ?l] => destruct l as [|? [|? ?]]; simpl
           | |- context [match ?x with Some _ => _ | None => _ end] => destruct x
           | |- context [if ?b then _ else _] => destruct b
           | H : context [pg_single ?l] |- _ => destruct l as [|? [|? ?]]; simpl in H
           | H : inr _ = inr _ |- _ => injection H as <-
           | H : inl _ = inr _ |- _ => discriminate H
           end; simpl; try discriminate.
Qed.

End RouteNever404.

Module ClientProps.
Import Store StoreFacts ClientDb RouteFacts AttendanceList.

(** [db.getAttendance(filters)] returns each row that passes the
    student and date filters once, latest date first; [filters.classId]
    only filters the embedded student, so it never removes a row. *)
Theorem getAttendance_result (tbl : list arow) (f : filters) :
  Permutation (map o_row (getAttendance tbl f)) (filter (keep (as_query f)) tbl)
  /\ Sorted (fun a b => String.leb (l_date b) (l_date a) = true) (map o_row (getAttendance tbl f))
  /\ map o_row (getAttendance tbl f)
     = map o_row (getAttendance tbl (mkFilters (f_studentId f) None (f_date f)
                                       (f_startDate f) (f_endDate f))).
Proof.
  assert (Hrows : forall g, map o_row (getAttendance tbl g)
                            = Sort.sort date_desc (filter (keep (as_query g)) tbl)).
  { intros g; unfold getAttendance; rewrite map_map; apply map_id. }
  rewrite !Hrows; split; [apply SortFacts.sort_perm|]; split.
  - apply SortFacts.sort_sorted; exact SortFacts.date_desc_flip.
  - reflexivity.
Qed.

(** Under the students' primary key, the client helper
    [db.recordAttendance] changes the store exactly as POST
    /api/attendance does, and it succeeds exactly when the route answers
    201: the foreign key refuses what the route's student check refuses. *)
Theorem client_record_same_store (d : db) (v : att_input) :
  students_pk d ->
  fst (post_single d v) = match recordAttendance d v with Some (d', _) => d' | None => d end
  /\ (r_status (snd (post_single d v)) = 201 <-> recordAttendance d v <> None).
Proof.
  intros Hpk.
  assert (Hup : upsert d [v] = Some (fst (upsert_one d v), [snd (upsert_one d v)])).
  { unfold upsert; simpl.
    destruct (NoDup_dec _ _) as [_|Hn]; [|exfalso; apply Hn; repeat constructor; intros []].
    destruct (upsert_one d v); reflexivity. }
  assert (Hfk : fk_ok d [v] = match single (students_eq d (in_student_id v)) with
                              | Some _ => true | None => false end).
  { unfold fk_ok, single, students_eq; simpl; rewrite andb_true_r, existsb_as_filter.
    pose proof (filter_at_most_one s_id (fun s => String.eqb (s_id s) (in_student_id v))
                  (in_student_id v) (students d) Hpk) as Hle.
    destruct (filter _ (students d)) as [|x [|y r]]; simpl in *; try reflexivity.
    exfalso; assert (S (S (List.length r)) <= 1); [|lia].
    apply Hle; intros s _ E; apply String.eqb_eq; exact E. }
  unfold post_single, recordAttendance; rewrite Hfk, Hup.
  destruct (single _); simpl.
  - split; [reflexivity|]; split; [discriminate | reflexivity].
  - split; [reflexivity|]; split; [discriminate | tauto].
Qed.

End ClientProps.

Module ListProps.
Import AttendanceList.


End ListProps.

Module RouteInstances.
Import Store Integrity Classes ClassRoutes StudentRoutes RouteFacts.
Local Open Scope string_scope.

Lemma sample_db_classes_pk : classes_pk Samples.sample_db.
Proof. unfold classes_pk; simpl; repeat constructor; intros []. Qed.

Lemma sample_db_names : class_names_unique Samples.sample_db.
Proof. unfold class_names_unique; simpl; repeat constructor; intros []. Qed.

Lemma class_writes_keep_integrity_witness :
  classes_pk Samples.sample_db /\ class_names_unique Samples.sample_db
  /\ refs_ok Samples.sample_db
  /\ (classes_pk (fst (post_class Samples.sample_db (mkClassValue "7B" 7) "c2"))
      /\ class_names_unique (fst (post_class Samples.sample_db (mkClassValue "7B" 7) "c2"))
      /\ refs_ok (fst (post_class Samples.sample_db (mkClassValue "7B" 7) "c2")))
  /\ (classes_pk (fst (put_class Samples.sample_db "c1" (mkClassValue "7B" 7)))
      /\ class_names_unique (fst (put_class Samples.sample_db "c1" (mkClassValue "7B" 7)))
      /\ refs_ok (fst (put_class Samples.sample_db "c1" (mkClassValue "7B" 7))))
  /\ (classes_pk (fst (delete_class Samples.sample_db "c1"))
      /\ class_names_unique (fst (delete_class Samples.sample_db "c1"))
      /\ refs_ok (fst (delete_class Samples.sample_db "c1"))).
Proof.
  split; [exact sample_db_classes_pk|]; split; [exact sample_db_names|].
  split; [exact AttendanceProps.sample_db_refs|].
  exact (ClassRouteProps.class_writes_keep_integrity Samples.sample_db sample_db_classes_pk
           sample_db_names AttendanceProps.sample_db_refs (mkClassValue "7B" 7) "c1" "c2").
Defined.

Lemma post_class_duplicate_bypass_witness :
  2 <= List.length (filter (same_name_grade (mkClassValue "7A" 7)) (classes Samples.dup_classes_db))
  /\ existsb (fun c => String.eqb (c_id c) "c3") (classes Samples.dup_classes_db) = false
  /\ grade_ok 7 = true
  /\ snd (post_class Samples.dup_classes_db (mkClassValue "7A" 7) "c3")
     = mkResp 201 true "Class created successfully"
  /\ List.length (filter (same_name_grade (mkClassValue "7A" 7))
                   (classes (fst (post_class Samples.dup_classes_db (mkClassValue "7A" 7) "c3"))))
     = 3.
Proof.
  assert (H2 : 2 <= List.length (filter (same_name_grade (mkClassValue "7A" 7))
                                   (classes Samples.dup_classes_db)))
    by (apply Nat.leb_le; reflexivity).
  assert (Hf : existsb (fun c => String.eqb (c_id c) "c3") (classes Samples.dup_classes_db) = false)
    by reflexivity.
  assert (Hg : grade_ok 7 = true) by reflexivity.
  split; [exact H2|]; split; [exact Hf|]; split; [exact Hg|].
  exact (ClassRouteProps.post_class_duplicate_bypass Samples.dup_classes_db
           (mkClassValue "7A" 7) "c3" H2 Hf Hg).
Defined.

Lemma class_routes_missing_id_witness :
  ~ In "c9" (map c_id (classes Samples.sample_db))
  /\ get_class Samples.sample_db "c9" = inr (mkResp 500 false "Failed to fetch class")
  /\ fst (put_class Samples.sample_db "c9" (mkClassValue "7B" 7)) = Samples.sample_db
  /\ fst (delete_class Samples.sample_db "c9") = Samples.sample_db.
Proof.
  assert (Hn : ~ In "c9" (map c_id (classes Samples.sample_db)))
    by (simpl; intuition discriminate).
  split; [exact Hn|].
  exact (ClassRouteProps.class_routes_missing_id Samples.sample_db "c9" (mkClassValue "7B" 7) Hn).
Defined.

Lemma student_writes_keep_integrity_witness :
  students_pk Samples.sample_db /\ attendance_unique Samples.sample_db
  /\ refs_ok Samples.sample_db
  /\ (students_pk (fst (post_student Samples.sample_db (mkStudentValue "Cici" "c1" "Female" "2012-03-04") "s3"))
      /\ attendance_unique (fst (post_student Samples.sample_db (mkStudentValue "Cici" "c1" "Female" "2012-03-04") "s3"))
      /\ refs_ok (fst (post_student Samples.sample_db (mkStudentValue "Cici" "c1" "Female" "2012-03-04") "s3")))
  /\ (students_pk (fst (put_student Samples.sample_db "s1" (mkStudentValue "Cici" "c1" "Female" "2012-03-04")))
      /\ attendance_unique (fst (put_student Samples.sample_db "s1" (mkStudentValue "Cici" "c1" "Female" "2012-03-04")))
      /\ refs_ok (fst (put_student Samples.sample_db "s1" (mkStudentValue "Cici" "c1" "Female" "2012-03-04"))))
  /\ (students_pk (fst (delete_student Samples.sample_db "s1"))
      /\ attendance_unique (fst (delete_student Samples.sample_db "s1"))
      /\ refs_ok (fst (delete_student Samples.sample_db "s1"))).
Proof.
  split; [exact AttendanceProps.sample_db_pk|]; split; [exact AttendanceProps.sample_db_unique|].
  split; [exact AttendanceProps.sample_db_refs|].
  exact (StudentRouteProps.student_writes_keep_integrity Samples.sample_db
           AttendanceProps.sample_db_pk AttendanceProps.sample_db_unique
           AttendanceProps.sample_db_refs (mkStudentValue "Cici" "c1" "Female" "2012-03-04") "s1" "s3").
Defined.

Lemma student_routes_missing_id_witness :
  ~ In "s9" (map s_id (students Samples.sample_db))
  /\ get_student Samples.sample_db "s9" = inr (mkResp 500 false "Failed to fetch student")
  /\ fst (put_student Samples.sample_db "s9" (mkStudentValue "Cici" "c1" "Female" "2012-03-04"))
     = Samples.sample_db
  /\ delete_student Samples.sample_db "s9"
     = (Samples.sample_db, mkResp 500 false "Failed to delete student").
Proof.
  assert (Hn : ~ In "s9" (map s_id (students Samples.sample_db)))
    by (simpl; intuition discriminate).
  split; [exact Hn|].
  exact (StudentRouteProps.student_routes_missing_id Samples.sample_db "s9"
           (mkStudentValue "Cici" "c1" "Female" "2012-03-04") Hn).
Defined.

Lemma client_record_same_store_witness :
  students_pk Samples.sample_db
  /\ fst (post_single Samples.sample_db (mkInput "s1" "2024-01-01" Late))
     = match ClientDb.recordAttendance Samples.sample_db (mkInput "s1" "2024-01-01" Late) with
       | Some (d', _) => d'
       | None => Samples.sample_db
       end
  /\ (r_status (snd (post_single Samples.sample_db (mkInput "s1" "2024-01-01" Late))) = 201
      <-> ClientDb.recordAttendance Samples.sample_db (mkInput "s1" "2024-01-01" Late) <> None).
Proof.
  split; [exact AttendanceProps.sample_db_pk|].
  exact (ClientProps.client_record_same_store Samples.sample_db (mkInput "s1" "2024-01-01" Late)
           AttendanceProps.sample_db_pk).
Defined.


End RouteInstances.
